(** * DenseLayer: graph construction and host-side initialisation

    A shallow embedding of [src/layers/layers.cpp] (namespace [ushionn::nn]):
    [DenseLayer::add_forward_to_graph], [DenseLayer::add_backward_to_graph],
    [DenseLayer::get_parameters], [DenseLayer::get_gradients] and
    [DenseLayer::initialize_parameters_norm].

    The C++ code works on shared, mutable descriptors
    ([std::shared_ptr<fe::graph::Tensor_attributes>]); they are modelled as
    indices into a store, so that two handles to one descriptor alias.
    Every function of the layer is a computation in a state-and-failure
    monad over that store, the list of emitted operations and the layer
    object itself. *)

From Stdlib Require Import ZArith Lia.
From coqutil Require Import Byte Word.LittleEndianList.
From stdpp Require Import base option list strings.

Local Open Scope Z_scope.
Local Open Scope string_scope.

(** ** Element types and operation modes *)

(** Modelled from the spec: [fe::DataType_t] is declared by the graph
    library, outside this repository. The spec (section 3) describes it as
    a small closed set holding 32-bit float, 64-bit float, 32-bit integer
    and others; the enumeration below lists the library's usual members. *)
Inductive DataType_t : Type :=
  | NOT_SET | FLOAT | DOUBLE | HALF | INT8 | INT32 | UINT8 | BFLOAT16
  | INT64 | BOOLEAN.

#[global] Instance DataType_t_eq_dec : EqDecision DataType_t.
Proof. solve_decision. Defined.

(** Modelled from the spec: the mode tags carried by the attributes of a
    pointwise and of a reduction request (section 6). A default-constructed
    attribute object has no mode yet. *)
Inductive PointwiseMode_t : Type :=
  | PW_NOT_SET | PW_ADD | PW_MUL | PW_SUB | PW_DIV.

Inductive ReductionMode_t : Type :=
  | RED_NOT_SET | RED_ADD | RED_MUL | RED_MIN | RED_MAX.

(** ** Graph-side descriptors *)

(** [fe::graph::Tensor_attributes] as far as the layer reads or writes it:
    [set_name], [set_data_type], [set_dim], [get_dim], [set_is_virtual]. *)
Record Tensor_attributes : Type := mkTA {
  ta_name : string;
  ta_data_type : DataType_t;
  ta_dim : list Z;
  ta_is_virtual : bool
}.

Definition set_name (s : string) (t : Tensor_attributes) : Tensor_attributes :=
  mkTA s (ta_data_type t) (ta_dim t) (ta_is_virtual t).
Definition set_data_type (d : DataType_t) (t : Tensor_attributes) : Tensor_attributes :=
  mkTA (ta_name t) d (ta_dim t) (ta_is_virtual t).
Definition set_dim (s : list Z) (t : Tensor_attributes) : Tensor_attributes :=
  mkTA (ta_name t) (ta_data_type t) s (ta_is_virtual t).
Definition set_is_virtual (b : bool) (t : Tensor_attributes) : Tensor_attributes :=
  mkTA (ta_name t) (ta_data_type t) (ta_dim t) b.

(** A [std::shared_ptr<Tensor_attributes>]: the index of the descriptor in
    the store. An index past the end of the store is a pointer that cannot
    be dereferenced. *)
Abbreviation TRef := nat (only parsing).

Record Matmul_attributes : Type := mkMatmulAttr {
  mm_compute_data_type : DataType_t
}.
Record Pointwise_attributes : Type := mkPointwiseAttr {
  pw_compute_data_type : DataType_t;
  pw_mode : PointwiseMode_t
}.
Record Reduction_attributes : Type := mkReductionAttr {
  red_compute_data_type : DataType_t;
  red_mode : ReductionMode_t
}.

(** The operations the layer asks the graph for. Each keeps its operand
    handles, its attributes and the handle of its output. *)
Inductive Operation : Type :=
  | OpMatmul (a b : TRef) (attrs : Matmul_attributes) (out : TRef)
  | OpPointwise (a b : TRef) (attrs : Pointwise_attributes) (out : TRef)
  | OpReduction (a : TRef) (attrs : Reduction_attributes) (out : TRef).

Definition op_output (o : Operation) : TRef :=
  match o with
  | OpMatmul _ _ _ out | OpPointwise _ _ _ out | OpReduction _ _ out => out
  end.

Definition op_inputs (o : Operation) : list TRef :=
  match o with
  | OpMatmul a b _ _ | OpPointwise a b _ _ => [a; b]
  | OpReduction a _ _ => [a]
  end.

(** Modelled from the spec: the Graph Node Registry (sections 2, 3 and 6) is
    the external graph library. Every call that adds an operation returns a
    new output descriptor; what that descriptor holds when it is handed
    back is the registry's own business, so it is a function of the store
    at the time of the call, the operand handles and the attributes. *)
Record Registry : Type := mkRegistry {
  reg_matmul : list Tensor_attributes -> TRef -> TRef -> Matmul_attributes -> Tensor_attributes;
  reg_pointwise : list Tensor_attributes -> TRef -> TRef -> Pointwise_attributes -> Tensor_attributes;
  reg_reduction : list Tensor_attributes -> TRef -> Reduction_attributes -> Tensor_attributes
}.

(** ** Host-side tensors and the layer *)

(** Modelled from the spec: the [Tensor] class is declared in another file
    of the repository; the spec (sections 3 and 6) gives it a name, an
    element type, a shape, a storage location and host storage, read by
    [get_data_type], [get_num_elements], [is_on_host] and
    [get_mutable_host_ptr]. *)
Record Tensor : Type := mkTensor {
  t_name : string;
  t_data_type : DataType_t;
  t_shape : list Z;
  t_on_host : bool;
  t_host : list byte
}.

Definition get_data_type (t : Tensor) : DataType_t := t_data_type t.
Definition is_on_host (t : Tensor) : bool := t_on_host t.

(** [size_t] is 64 bits wide. *)
Definition SIZE_T_MOD : Z := 2 ^ 64.

(** Modelled from the spec: [get_num_elements()], the number of elements
    the shape describes, as a [size_t]. *)
Definition get_num_elements (t : Tensor) : Z :=
  fold_right Z.mul 1 (t_shape t) mod SIZE_T_MOD.

Definition set_host (b : list byte) (t : Tensor) : Tensor :=
  mkTensor (t_name t) (t_data_type t) (t_shape t) (t_on_host t) b.

(** The members of [DenseLayer] the source file uses. *)
Record DenseLayer : Type := mkDenseLayer {
  name_ : string;
  data_type_ : DataType_t;
  weights_ : Tensor;
  bias_ : Tensor;
  weights_grad_ : Tensor;
  bias_grad_ : Tensor
}.

Definition set_weights (t : Tensor) (l : DenseLayer) : DenseLayer :=
  mkDenseLayer (name_ l) (data_type_ l) t (bias_ l) (weights_grad_ l) (bias_grad_ l).

(** ** The state-and-failure monad *)

(** What a call sees and may change: the store of descriptors, the
    operations emitted into the graph so far (oldest first) and the layer
    the method is called on. *)
Record World : Type := mkWorld {
  heap : list Tensor_attributes;
  graph : list Operation;
  self : DenseLayer
}.

(** The ways a call can stop without returning. The first two are the
    failures the source raises itself. [OutOfBounds], [BadHandle] and
    [SignedOverflow] mark the places where the C++ code has undefined
    behaviour: they say that the source promises nothing from there on,
    not that the compiled program stops there. [OutOfFuel] belongs to the
    model alone. *)
Inductive Failure : Type :=
  | PreconditionFailure (msg : string)
  | UnsupportedFatal (msg : string)
  | OutOfBounds
  | BadHandle
  | SignedOverflow
  | OutOfFuel.

Inductive Result (A : Type) : Type :=
  | Ok (a : A)
  | Err (f : Failure).
Arguments Ok {A} a.
Arguments Err {A} f.

(** A computation runs from a world and leaves a world behind, whether it
    returns or stops: the world left by a failure is the one in which the
    failure was raised. *)
Definition M (A : Type) : Type := World -> Result A * World.

#[global] Instance M_ret : MRet M := fun A a w => (Ok a, w).
#[global] Instance M_bind : MBind M := fun A B f m w =>
  match m w with
  | (Ok a, w') => f a w'
  | (Err e, w') => (Err e, w')
  end.

Definition fail {A} (e : Failure) : M A := fun w => (Err e, w).
Definition get_self : M DenseLayer := fun w => (Ok (self w), w).
Definition put_self (l : DenseLayer) : M unit :=
  fun w => (Ok tt, mkWorld (heap w) (graph w) l).
Definition get_heap : M (list Tensor_attributes) := fun w => (Ok (heap w), w).

(** [std::make_shared]: a new descriptor at the end of the store. *)
Definition alloc_node (d : Tensor_attributes) : M TRef :=
  fun w => (Ok (length (heap w)), mkWorld (heap w ++ [d]) (graph w) (self w)).

(** [r->...]: reading through a handle. *)
Definition deref (r : TRef) : M Tensor_attributes :=
  fun w => match heap w !! r with
           | Some d => (Ok d, w)
           | None => (Err BadHandle, w)
           end.

(** [r->set_...(...)]: the descriptor behind the handle is changed in
    place, for every holder of the handle. *)
Definition update_node (r : TRef) (f : Tensor_attributes -> Tensor_attributes) : M unit :=
  fun w => match heap w !! r with
           | Some d => (Ok tt, mkWorld (<[r := f d]> (heap w)) (graph w) (self w))
           | None => (Err BadHandle, w)
           end.

Definition emit (o : Operation) : M unit :=
  fun w => (Ok tt, mkWorld (heap w) (graph w ++ [o]) (self w)).

(** ** [std::vector<int64_t>] with [size_t] indices *)

(** Subtraction of [size_t] values wraps around. *)
Definition size_sub (a b : Z) : Z := (a - b) mod SIZE_T_MOD.

Definition vec_size (v : list Z) : Z := Z.of_nat (length v).

(** [v[i]]: [operator[]] does not check its index; an index outside the
    vector has no defined result and is reported as [None]. *)
Definition vec_at (v : list Z) (i : Z) : option Z :=
  if bool_decide (0 <= i < vec_size v) then v !! Z.to_nat i else None.

(** [std::swap(v[i], v[j])]. *)
Definition vec_swap (v : list Z) (i j : Z) : option (list Z) :=
  a ← vec_at v i;
  b ← vec_at v j;
  Some (<[Z.to_nat j := a]> (<[Z.to_nat i := b]> v)).

(** The idiom of lines 47-50 and 72-74:
    [std::swap(shape[shape.size() - 1], shape[shape.size() - 2])]. *)
Definition swap_last_two (shape : list Z) : option (list Z) :=
  let shape_size := vec_size shape in
  vec_swap shape (size_sub shape_size 1) (size_sub shape_size 2).

Definition lift_vec {A} (o : option A) : M A :=
  match o with
  | Some a => mret a
  | None => fail OutOfBounds
  end.

(** ** Calls into the graph *)

(** The descriptor [create_graph_tensor_attributes] makes of a tensor. *)
Definition of_tensor (t : Tensor) : Tensor_attributes :=
  mkTA (t_name t) (t_data_type t) (t_shape t) false.

(** The chain the layer applies to every output it gets from the graph:
    [->set_is_virtual(true).set_name(name_ + suffix).set_data_type(data_type_)]. *)
Definition named_output (l : DenseLayer) (suffix : string) (d : Tensor_attributes)
    : Tensor_attributes :=
  set_data_type (data_type_ l) (set_name (name_ l +:+ suffix) (set_is_virtual true d)).

(** The chain of lines 52 and 76:
    [->set_dim(shape).set_is_virtual(true).set_data_type(data_type_)]. *)
Definition reshaped (l : DenseLayer) (shape : list Z) (d : Tensor_attributes)
    : Tensor_attributes :=
  set_data_type (data_type_ l) (set_is_virtual true (set_dim shape d)).

Section WithRegistry.
Context (reg : Registry).

(** [graph->matmul(a, b, attrs)]. *)
Definition matmul (a b : TRef) (attrs : Matmul_attributes) : M TRef :=
  h ← get_heap;
  out ← alloc_node (reg_matmul reg h a b attrs);
  emit (OpMatmul a b attrs out);;
  mret out.

(** [graph->pointwise(a, b, attrs)]. *)
Definition pointwise (a b : TRef) (attrs : Pointwise_attributes) : M TRef :=
  h ← get_heap;
  out ← alloc_node (reg_pointwise reg h a b attrs);
  emit (OpPointwise a b attrs out);;
  mret out.

(** [graph->reduction(a, attrs)]. *)
Definition reduction (a : TRef) (attrs : Reduction_attributes) : M TRef :=
  h ← get_heap;
  out ← alloc_node (reg_reduction reg h a attrs);
  emit (OpReduction a attrs out);;
  mret out.

(** Modelled from the spec: [Tensor::create_graph_tensor_attributes(graph)]
    is defined in another file of the repository. The spec calls its result a freshly
    created tensor-attribute reference that the builder borrows from the
    parameter: a new descriptor with the tensor's name, element type and
    shape, not virtual (it must be bound to real storage); the tensor
    itself is left as it is. *)
Definition create_graph_tensor_attributes (t : Tensor) : M TRef :=
  alloc_node (of_tensor t).

(** ** [DenseLayer::add_forward_to_graph] (lines 7-33) *)
Definition add_forward_to_graph (input_tensor_graph_ref : TRef) : M TRef :=
  l ← get_self;
  let matmul_operation := mkMatmulAttr (get_data_type (weights_ l)) in
  let add_operation := mkPointwiseAttr (get_data_type (bias_ l)) PW_ADD in
  weights_tensor_attributes ← create_graph_tensor_attributes (weights_ l);
  bias_tensor_attributes ← create_graph_tensor_attributes (bias_ l);
  weights_output_tensor_attributes ←
    matmul input_tensor_graph_ref weights_tensor_attributes matmul_operation;
  update_node weights_output_tensor_attributes
    (fun d => set_data_type (data_type_ l)
                (set_name (name_ l +:+ "_weights_matmul_out")
                   (set_is_virtual true d)));;
  output_tensor_attributes ←
    pointwise weights_output_tensor_attributes bias_tensor_attributes add_operation;
  update_node output_tensor_attributes
    (fun d => set_data_type (data_type_ l)
                (set_name (name_ l +:+ "_bias_add_out")
                   (set_is_virtual true d)));;
  mret output_tensor_attributes.

(** ** [DenseLayer::add_backward_to_graph] (lines 35-83) *)
Definition add_backward_to_graph
    (output_grad_graph_ref fwd_input_tensor_ref fwd_output_tensor_ref : TRef) : M TRef :=
  l ← get_self;
  let matmul_operation := mkMatmulAttr (get_data_type (weights_grad_ l)) in
  weights_grad_tensor_attributes ← create_graph_tensor_attributes (weights_grad_ l);
  (* lines 47-52: the forward input, transposed in place *)
  fwd_input ← deref fwd_input_tensor_ref;
  let fwd_input_tensor_ref_shape := ta_dim fwd_input in
  fwd_input_tensor_ref_shape ← lift_vec (swap_last_two fwd_input_tensor_ref_shape);
  update_node fwd_input_tensor_ref
    (fun d => set_data_type (data_type_ l)
                (set_is_virtual true (set_dim fwd_input_tensor_ref_shape d)));;
  (* lines 55-58: the handle obtained above is overwritten *)
  weights_grad_tensor_attributes ←
    matmul fwd_input_tensor_ref output_grad_graph_ref matmul_operation;
  update_node weights_grad_tensor_attributes
    (fun d => set_data_type (data_type_ l)
                (set_name (name_ l +:+ "_weights_matmul_out_bwd")
                   (set_is_virtual true d)));;
  (* lines 61-68 *)
  let reduction_operation := mkReductionAttr (get_data_type (bias_grad_ l)) RED_ADD in
  bias_grad_tensor_attributes ← create_graph_tensor_attributes (bias_grad_ l);
  bias_grad_tensor_attributes ← reduction output_grad_graph_ref reduction_operation;
  update_node bias_grad_tensor_attributes
    (fun d => set_data_type (data_type_ l)
                (set_name (name_ l +:+ "_bias_add_out_bwd")
                   (set_is_virtual true d)));;
  (* lines 71-76: a new weight descriptor, transposed *)
  weights_tensor_attributes ← create_graph_tensor_attributes (weights_ l);
  weights_tensor ← deref weights_tensor_attributes;
  let weights_tensor_shape := ta_dim weights_tensor in
  weights_tensor_shape ← lift_vec (swap_last_two weights_tensor_shape);
  update_node weights_tensor_attributes
    (fun d => set_data_type (data_type_ l)
                (set_is_virtual true (set_dim weights_tensor_shape d)));;
  (* lines 79-82 *)
  output_tensor_attributes ←
    matmul output_grad_graph_ref weights_tensor_attributes matmul_operation;
  update_node output_tensor_attributes
    (fun d => set_data_type (data_type_ l)
                (set_name (name_ l +:+ "_output_bwd")
                   (set_is_virtual true d)));;
  mret output_tensor_attributes.

End WithRegistry.

(** ** [DenseLayer::get_parameters] and [DenseLayer::get_gradients]
    (lines 85-93) *)

(** A [Tensor*] into the layer object: [&weights_], [&bias_],
    [&weights_grad_], [&bias_grad_]. Two such pointers are the same pointer
    exactly when they name the same member. *)
Inductive TensorPtr : Type :=
  | addr_weights_ | addr_bias_ | addr_weights_grad_ | addr_bias_grad_.

(** [*p], read in a given state of the layer. *)
Definition pointee (l : DenseLayer) (p : TensorPtr) : Tensor :=
  match p with
  | addr_weights_ => weights_ l
  | addr_bias_ => bias_ l
  | addr_weights_grad_ => weights_grad_ l
  | addr_bias_grad_ => bias_grad_ l
  end.

Definition get_parameters : M (list TensorPtr) :=
  mret [addr_weights_; addr_bias_].

Definition get_gradients : M (list TensorPtr) :=
  mret [addr_weights_grad_; addr_bias_grad_].

(** ** [DenseLayer::initialize_parameters_norm] (lines 95-117) *)

(** Modelled from the spec: [USHIONN_ASSERT] and [USHIONN_LOG_FATAL] are
    macros defined in another file of the repository. Section 7
    of the spec: a failed assertion aborts the operation with its message
    (a precondition failure); the fatal log stops it as an unsupported
    configuration. *)
Definition USHIONN_ASSERT (cond : bool) (msg : string) : M unit :=
  if cond then mret tt else fail (PreconditionFailure msg).

Definition USHIONN_LOG_FATAL (msg : string) : M unit :=
  fail (UnsupportedFatal msg).

(** [std::mt19937] and [std::normal_distribution<T>] belong to the C++
    standard library. The engine is built from the seed; a distribution
    object is default-constructed and each [dist(gen)] returns a value,
    given here by its bit pattern, and advances both objects. *)
Record StdRandom : Type := mkStdRandom {
  Engine : Type;
  mt19937 : Z -> Engine;
  NormalFloat : Type;
  normal_float : NormalFloat;
  draw_float : NormalFloat -> Engine -> Z * NormalFloat * Engine;
  NormalDouble : Type;
  normal_double : NormalDouble;
  draw_double : NormalDouble -> Engine -> Z * NormalDouble * Engine
}.

Definition INT_MAX : Z := 2 ^ 31 - 1.
Definition sizeof_float : nat := 4.
Definition sizeof_double : nat := 8.

(** [static_cast<T*>(weights_.get_mutable_host_ptr())[i] = x]: the bytes
    [bs] of [x] go to byte offset [off] of the weight tensor's host storage.
    The source checks nothing here. A store that does not fit the storage
    is undefined behaviour (the compiled program writes past the storage);
    the model marks it with [OutOfBounds] and follows the call no
    further. *)
Definition host_store (off : Z) (bs : list byte) : M unit :=
  l ← get_self;
  let buf := t_host (weights_ l) in
  if bool_decide (0 <= off ∧ off + Z.of_nat (length bs) <= Z.of_nat (length buf)) then
    put_self
      (set_weights
         (set_host (take (Z.to_nat off) buf ++ bs ++ drop (Z.to_nat off + length bs) buf)
            (weights_ l)) l)
  else fail OutOfBounds.

Section WithRandom.
Context (rnd : StdRandom).

(** [for (int i = ...; i < num_elem; ++i) p[i] = dist(gen);] from the
    value [i] on. [i] is an [int] and [num_elem] a [size_t]: the comparison
    converts [i] to [size_t], and [++i] past [INT_MAX] is undefined
    behaviour, which the model marks with [SignedOverflow] and follows no
    further. [fuel] bounds the number of iterations. *)
Fixpoint fill_loop {D : Type} (width : nat)
    (dist : D -> Engine rnd -> Z * D * Engine rnd)
    (fuel : nat) (i num_elem : Z) (d : D) (gen : Engine rnd) : M unit :=
  if bool_decide (i mod SIZE_T_MOD < num_elem) then
    match fuel with
    | O => fail OutOfFuel
    | S fuel' =>
        let '(x, d', gen') := dist d gen in
        host_store (Z.of_nat width * i) (le_split width x);;
        if bool_decide (i + 1 <= INT_MAX)
        then fill_loop width dist fuel' (i + 1) num_elem d' gen'
        else fail SignedOverflow
    end
  else mret tt.

Definition initialize_parameters_norm (seed : Z) : M unit :=
  l ← get_self;
  USHIONN_ASSERT (is_on_host (weights_ l))
    "The weight to initialize must be on the host";;
  let num_elem := get_num_elements (weights_ l) in
  let gen := mt19937 rnd seed in
  if decide (data_type_ l = FLOAT) then
    fill_loop sizeof_float (draw_float rnd) (Z.to_nat num_elem) 0 num_elem
      (normal_float rnd) gen
  else if decide (data_type_ l = DOUBLE) then
    fill_loop sizeof_double (draw_double rnd) (Z.to_nat num_elem) 0 num_elem
      (normal_double rnd) gen
  else if decide (data_type_ l = INT32) then
    USHIONN_LOG_FATAL
      "This library does not yet support integer weight initialization"
  else mret tt.

(** The bytes of the first [n] values drawn, in the order drawn. *)
Fixpoint drawn_bytes {D : Type} (width : nat)
    (dist : D -> Engine rnd -> Z * D * Engine rnd)
    (n : nat) (d : D) (gen : Engine rnd) : list byte :=
  match n with
  | O => []
  | S n' =>
      let '(x, d', gen') := dist d gen in
      le_split width x ++ drawn_bytes width dist n' d' gen'
  end.

End WithRandom.

(** ** A registry that infers shapes *)

(** Modelled from the spec: the shapes of section 8's worked example. A
    product of [[batch..., m, k]] and [[..., k, n]] has shape
    [[batch..., m, n]]; a pointwise result has the shape of its first
    operand; a sum over the batch dimensions keeps the last dimension. A
    handle that cannot be read counts as an empty shape. *)
Definition dim_of (h : list Tensor_attributes) (r : TRef) : list Z :=
  from_option ta_dim [] (h !! r).

Definition matmul_dim (a b : list Z) : list Z :=
  take (length a - 1) a ++ drop (length b - 1) b.

Definition reduction_dim (a : list Z) : list Z := drop (length a - 1) a.

Definition fresh_output (dim : list Z) : Tensor_attributes :=
  mkTA "" NOT_SET dim false.

Definition infer_registry : Registry :=
  mkRegistry
    (fun h a b _ => fresh_output (matmul_dim (dim_of h a) (dim_of h b)))
    (fun h a _ _ => fresh_output (dim_of h a))
    (fun h a _ => fresh_output (reduction_dim (dim_of h a))).

(** The layer and the graph of section 8's example: 4 inputs, 3 outputs,
    a batch of 8. The store holds the forward input [X] at handle 0 and the
    gradient of the output [dY] at handle 1. *)
Definition example_tensor (n : string) (shape : list Z) : Tensor :=
  mkTensor n FLOAT shape true [].

Definition example_layer : DenseLayer :=
  mkDenseLayer "fc1" FLOAT
    (example_tensor "fc1_w" [4; 3]) (example_tensor "fc1_b" [3])
    (example_tensor "fc1_w_grad" [4; 3]) (example_tensor "fc1_b_grad" [3]).

Definition example_world : World :=
  mkWorld [mkTA "X" FLOAT [8; 4] false; mkTA "dY" FLOAT [8; 3] false] [] example_layer.

(** The same layer and output gradient with a forward input of another
    batch size: the two worlds differ in the forward input's shape only. *)
Definition other_input_world : World :=
  mkWorld [mkTA "X" FLOAT [5; 4] false; mkTA "dY" FLOAT [8; 3] false] [] example_layer.

(** A registry whose matmul output depends on what a matmul request hands
    over and on nothing else: the two operand descriptors and the
    attributes (section 6 of the spec: [matmul(a, b, attrs)]). *)
Definition matmul_local (reg : Registry) : Prop :=
  forall (h h' : list Tensor_attributes) (a b : TRef) (attrs : Matmul_attributes),
    h !! a = h' !! a -> h !! b = h' !! b ->
    reg_matmul reg h a b attrs = reg_matmul reg h' a b attrs.

(** A registry that leaves the shape of every output unset. *)
Definition unset_registry : Registry :=
  mkRegistry (fun _ _ _ _ => fresh_output []) (fun _ _ _ _ => fresh_output [])
    (fun _ _ _ => fresh_output []).

(** ** A stand-in generator *)

(** A linear congruential generator in the place of the standard library's
    engine and distributions, to run the initialiser on examples. *)
Definition lcg_step (m : Z) (g : Z) : Z := (g * 6364136223846793005 + 1442695040888963407) mod m.

Definition lcg_random : StdRandom :=
  mkStdRandom Z (fun seed => seed mod 2 ^ 32)
    unit tt (fun d g => (lcg_step (2 ^ 32) g, d, lcg_step (2 ^ 32) g))
    unit tt (fun d g => (lcg_step (2 ^ 64) g, d, lcg_step (2 ^ 64) g)).

Definition zero_bytes (n : nat) : list byte := replicate n Byte.x00.

(** A layer whose weights are stored as [storage] and whose configured
    data type is [configured]; two weights, [len] bytes of host storage. *)
Definition init_layer (configured storage : DataType_t) (on_host : bool) (len : nat)
    : DenseLayer :=
  mkDenseLayer "fc" configured
    (mkTensor "fc_w" storage [2; 1] on_host (zero_bytes len))
    (mkTensor "fc_b" storage [1] on_host [])
    (mkTensor "fc_w_grad" storage [2; 1] on_host [])
    (mkTensor "fc_b_grad" storage [1] on_host []).

Definition init_world (configured storage : DataType_t) (on_host : bool) (len : nat)
    : World :=
  mkWorld [] [] (init_layer configured storage on_host len).

(** ** Reading results *)

(** The spec's logical transpose (glossary): the shape with its last two
    dimensions swapped, written without indices. It is compared below with
    [swap_last_two], which follows the code. *)
Definition logical_transpose (shape : list Z) : list Z :=
  take (length shape - 2) shape ++ reverse (drop (length shape - 2) shape).

(** The descriptor behind the handle a call returned, if it returned. *)
Definition returned_node (res : Result TRef * World) : option Tensor_attributes :=
  match res with
  | (Ok r, w) => heap w !! r
  | (Err _, _) => None
  end.

(** The handles an operation touches. *)
Definition op_handles (o : Operation) : list TRef := op_output o :: op_inputs o.

(** The world [w] with the weight tensor's host storage replaced by [b]:
    nothing else differs. *)
Definition with_host (b : list byte) (w : World) : World :=
  mkWorld (heap w) (graph w) (set_weights (set_host b (weights_ (self w))) (self w)).

(** The size and the bytes of what the initialiser stores for [n] elements
    when the layer is configured as [dt]. *)
Definition sizeof_configured (dt : DataType_t) : nat :=
  match dt with
  | FLOAT => sizeof_float
  | DOUBLE => sizeof_double
  | _ => 0%nat
  end.

Definition initial_bytes (rnd : StdRandom) (dt : DataType_t) (seed : Z) (n : nat)
    : list byte :=
  match dt with
  | FLOAT =>
      drawn_bytes rnd sizeof_float (draw_float rnd) n (normal_float rnd) (mt19937 rnd seed)
  | DOUBLE =>
      drawn_bytes rnd sizeof_double (draw_double rnd) n (normal_double rnd) (mt19937 rnd seed)
  | _ => []
  end.

(** * Proofs *)

Local Open Scope list_scope.

(** ** Vectors and [size_t] arithmetic *)

Lemma size_sub_small n k : 0 <= k <= n -> n < SIZE_T_MOD -> size_sub n k = n - k.
Proof. intros. unfold size_sub. apply Z.mod_small. lia. Qed.

Lemma split_last_two (v : list Z) :
  2 <= vec_size v -> exists pre a b, v = pre ++ [a; b].
Proof.
  unfold vec_size. intros H.
  exists (take (length v - 2) v).
  pose proof (length_drop v (length v - 2)) as Hd.
  pose proof (take_drop (length v - 2) v) as Hv.
  destruct (drop (length v - 2) v) as [|a [|b [|c d]]]; simpl in Hd; try lia.
  by exists a, b.
Qed.

Lemma vec_at_lookup (v : list Z) (i : nat) x :
  v !! i = Some x -> vec_at v (Z.of_nat i) = Some x.
Proof.
  intros H. unfold vec_at, vec_size.
  apply lookup_lt_Some in H as Hlt.
  rewrite bool_decide_eq_true_2 by lia.
  by rewrite Nat2Z.id.
Qed.

Lemma swap_last_two_snoc pre a b :
  vec_size (pre ++ [a; b]) < SIZE_T_MOD ->
  swap_last_two (pre ++ [a; b]) = Some (pre ++ [b; a]).
Proof.
  intros Hlt. unfold swap_last_two, vec_swap.
  assert (Hn : vec_size (pre ++ [a; b]) = Z.of_nat (length pre) + 2).
  { unfold vec_size. rewrite length_app. simpl. lia. }
  rewrite !size_sub_small by lia. rewrite Hn.
  replace (Z.of_nat (length pre) + 2 - 1) with (Z.of_nat (length pre + 1)) by lia.
  replace (Z.of_nat (length pre) + 2 - 2) with (Z.of_nat (length pre + 0)) by lia.
  rewrite (vec_at_lookup _ (length pre + 1) b), (vec_at_lookup _ (length pre + 0) a); cycle 1.
  - rewrite lookup_app_r by lia. by replace (length pre + 0 - length pre)%nat with 0%nat by lia.
  - rewrite lookup_app_r by lia. by replace (length pre + 1 - length pre)%nat with 1%nat by lia.
  - simpl. rewrite !Nat2Z.id, !insert_app_r. done.
Qed.

Lemma logical_transpose_snoc pre a b : logical_transpose (pre ++ [a; b]) = pre ++ [b; a].
Proof.
  unfold logical_transpose. rewrite length_app; simpl.
  replace (length pre + 2 - 2)%nat with (length pre) by lia.
  by rewrite take_app_length, drop_app_length.
Qed.

Lemma swap_last_two_transpose v :
  2 <= vec_size v < SIZE_T_MOD -> swap_last_two v = Some (logical_transpose v).
Proof.
  intros [H2 Hlt]. destruct (split_last_two v H2) as (pre & a & b & ->).
  rewrite logical_transpose_snoc. by apply swap_last_two_snoc.
Qed.

Lemma swap_last_two_short v : vec_size v < 2 -> swap_last_two v = None.
Proof.
  unfold vec_size. intros H. destruct v as [|a [|b v]]; [done|done|simpl in H; lia].
Qed.

(** A wrapped difference never leaves the vector it is taken in. *)
Lemma size_sub_in_bounds n k : 0 < k <= n -> 0 <= size_sub n k < n.
Proof.
  intros Hk. unfold size_sub.
  pose proof (Z.mod_pos_bound (n - k) SIZE_T_MOD eq_refl).
  pose proof (Z.mod_le (n - k) SIZE_T_MOD). lia.
Qed.

Lemma swap_last_two_is_Some v : 2 <= vec_size v -> is_Some (swap_last_two v).
Proof.
  intros H. unfold swap_last_two, vec_swap.
  assert (H1 : 0 <= size_sub (vec_size v) 1 < vec_size v).
  { apply size_sub_in_bounds. lia. }
  assert (H2' : 0 <= size_sub (vec_size v) 2 < vec_size v).
  { apply size_sub_in_bounds. lia. }
  unfold vec_at. rewrite !bool_decide_eq_true_2 by done.
  destruct (lookup_lt_is_Some_2 v (Z.to_nat (size_sub (vec_size v) 1))) as [x ->];
    [unfold vec_size in *; lia|].
  destruct (lookup_lt_is_Some_2 v (Z.to_nat (size_sub (vec_size v) 2))) as [y ->];
    [unfold vec_size in *; lia|].
  simpl. eauto.
Qed.

Lemma update_fresh h d g s f :
  update_node (length h) f (mkWorld (h ++ [d]) g s) = (Ok tt, mkWorld (h ++ [f d]) g s).
Proof.
  unfold update_node; cbn [heap graph self].
  rewrite list_lookup_middle by done.
  replace (length h) with (length h + 0)%nat at 1 by lia.
  by rewrite insert_app_r.
Qed.

Lemma update_old h r d g s f :
  h !! r = Some d ->
  update_node r f (mkWorld h g s) = (Ok tt, mkWorld (<[r := f d]> h) g s).
Proof. intros H. unfold update_node; cbn [heap graph self]. by rewrite H. Qed.

Lemma deref_old h r d g s :
  h !! r = Some d -> deref r (mkWorld h g s) = (Ok d, mkWorld h g s).
Proof. intros H. unfold deref; cbn [heap]. by rewrite H. Qed.

Lemma deref_fresh h d g s :
  deref (length h) (mkWorld (h ++ [d]) g s) = (Ok d, mkWorld (h ++ [d]) g s).
Proof. apply deref_old. by apply list_lookup_middle. Qed.

Ltac run_builder :=
  unfold create_graph_tensor_attributes, matmul, pointwise, reduction, lift_vec,
    mbind, M_bind, get_self, get_heap, alloc_node, emit, mret, M_ret;
  cbn [heap graph self].

Ltac step_fresh := rewrite ?update_fresh, ?deref_fresh; cbn [heap graph self].


Lemma lookup_fresh {A} (h news : list A) (n k : nat) :
  n = length h -> (h ++ news) !! (n + k)%nat = news !! k.
Proof.
  intros ->. rewrite lookup_app_r by lia.
  by replace (length h + k - length h)%nat with k by lia.
Qed.

(** ** The forward builder *)

(** C4. [add_forward_to_graph] appends exactly two operations to the graph, in
    this order: a matmul of the input handle and a new descriptor made from
    the weights, then a pointwise ADD of the matmul's output and a new
    descriptor made from the bias. Both outputs are virtual, carry the
    layer's name followed by [_weights_matmul_out] and [_bias_add_out], and
    have the layer's configured data type. The call returns the handle of
    the ADD's output, leaves the layer as it was and changes no descriptor
    that existed before. *)
Theorem add_forward_to_graph_emits (reg : Registry) (input : TRef) (w : World) :
  let l := self w in
  let n := length (heap w) in
  let mm := mkMatmulAttr (t_data_type (weights_ l)) in
  let add := mkPointwiseAttr (t_data_type (bias_ l)) PW_ADD in
  exists mm_out add_out : Tensor_attributes,
    add_forward_to_graph reg input w =
      (Ok (n + 3)%nat,
       mkWorld
         (heap w ++ [of_tensor (weights_ l); of_tensor (bias_ l); mm_out; add_out])
         (graph w ++ [OpMatmul input n mm (n + 2)%nat;
                      OpPointwise (n + 2)%nat (n + 1)%nat add (n + 3)%nat])
         l)
    /\ ta_is_virtual mm_out = true
    /\ ta_name mm_out = name_ l +:+ "_weights_matmul_out"
    /\ ta_data_type mm_out = data_type_ l
    /\ ta_is_virtual add_out = true
    /\ ta_name add_out = name_ l +:+ "_bias_add_out"
    /\ ta_data_type add_out = data_type_ l.
Proof.
  cbv zeta. eexists (named_output (self w) "_weights_matmul_out" _),
    (named_output (self w) "_bias_add_out" _).
  split; [|by repeat split].
  unfold add_forward_to_graph. run_builder. step_fresh. step_fresh.
  rewrite !length_app. cbn [length].
  unfold named_output, get_data_type. rewrite <- !app_assoc. cbn [app].
  repeat (f_equal; try lia).
Qed.

(** ** The backward builder *)

Section Backward.
Context (reg : Registry).

(** What a call does when both transposes are possible, step by step:
    [h1], [h2] and [h3] are the stores the three operations are issued
    in. *)
Lemma add_backward_to_graph_run dY X fo w x sx sw :
  heap w !! X = Some x ->
  swap_last_two (ta_dim x) = Some sx ->
  swap_last_two (t_shape (weights_ (self w))) = Some sw ->
  let l := self w in
  let n := length (heap w) in
  let mm := mkMatmulAttr (t_data_type (weights_grad_ l)) in
  let red := mkReductionAttr (t_data_type (bias_grad_ l)) RED_ADD in
  let base := <[X := reshaped l sx x]> (heap w) in
  let h1 := base ++ [of_tensor (weights_grad_ l)] in
  let dW := named_output l "_weights_matmul_out_bwd" (reg_matmul reg h1 X dY mm) in
  let h2 := base ++ [of_tensor (weights_grad_ l); dW; of_tensor (bias_grad_ l)] in
  let db := named_output l "_bias_add_out_bwd" (reg_reduction reg h2 dY red) in
  let wt := reshaped l sw (of_tensor (weights_ l)) in
  let h3 := base ++ [of_tensor (weights_grad_ l); dW; of_tensor (bias_grad_ l); db; wt] in
  let dX := named_output l "_output_bwd" (reg_matmul reg h3 dY (n + 4)%nat mm) in
  add_backward_to_graph reg dY X fo w =
    (Ok (n + 5)%nat,
     mkWorld
       (base ++ [of_tensor (weights_grad_ l); dW; of_tensor (bias_grad_ l); db; wt; dX])
       (graph w ++ [OpMatmul X dY mm (n + 1)%nat; OpReduction dY red (n + 3)%nat;
                    OpMatmul dY (n + 4)%nat mm (n + 5)%nat])
       l).
Proof.
  intros HX Hsx Hsw. cbv zeta.
  apply lookup_lt_Some in HX as Hlt.
  unfold add_backward_to_graph. run_builder.
  rewrite (deref_old _ X x) by (by rewrite lookup_app_l).
  rewrite Hsx. cbn [heap graph self].
  rewrite (update_old _ X x) by (by rewrite lookup_app_l).
  cbn [heap graph self]. step_fresh. step_fresh. step_fresh.
  cbn [of_tensor ta_dim]. rewrite Hsw. step_fresh. step_fresh.
  rewrite insert_app_l by done.
  rewrite !length_app, !length_insert. cbn [length].
  unfold named_output, reshaped, get_data_type, of_tensor.
  rewrite <- !app_assoc. cbn [app].
  repeat (f_equal; try lia).
Qed.

(** Nothing checks the length of the forward input's shape: when the swap
    of lines 49-50 leaves the vector, the call stops there. *)
Lemma add_backward_to_graph_short_input dY X fo w x :
  heap w !! X = Some x ->
  swap_last_two (ta_dim x) = None ->
  (add_backward_to_graph reg dY X fo w).1 = Err OutOfBounds.
Proof.
  intros HX Hsx. apply lookup_lt_Some in HX as Hlt.
  unfold add_backward_to_graph. run_builder.
  rewrite (deref_old _ X x) by (by rewrite lookup_app_l).
  by rewrite Hsx.
Qed.

(** Nor the length of the weight shape, at line 74. *)
Lemma add_backward_to_graph_short_weights dY X fo w x sx :
  heap w !! X = Some x ->
  swap_last_two (ta_dim x) = Some sx ->
  swap_last_two (t_shape (weights_ (self w))) = None ->
  (add_backward_to_graph reg dY X fo w).1 = Err OutOfBounds.
Proof.
  intros HX Hsx Hsw. apply lookup_lt_Some in HX as Hlt.
  unfold add_backward_to_graph. run_builder.
  rewrite (deref_old _ X x) by (by rewrite lookup_app_l).
  rewrite Hsx. cbn [heap graph self].
  rewrite (update_old _ X x) by (by rewrite lookup_app_l).
  cbn [heap graph self]. step_fresh. step_fresh. step_fresh.
  cbn [of_tensor ta_dim]. by rewrite Hsw.
Qed.

Ltac backward_facts dY fo HX Hx Hw :=
  pose proof (add_backward_to_graph_run dY _ fo _ _ _ _ HX
                (swap_last_two_transpose _ Hx) (swap_last_two_transpose _ Hw)) as Hrun;
  cbv zeta in Hrun;
  pose proof (lookup_lt_Some _ _ _ HX) as Hlt.

Ltac new_node := rewrite lookup_fresh by (by rewrite length_insert); reflexivity.

(** C3. When both shapes can be transposed, [add_backward_to_graph] reads the
    shape of the forward input, swaps its last two dimensions and stores
    the result in the forward input's own descriptor (which it also marks
    virtual and retypes); it then issues, as the first of exactly three
    operations and with no operation for the transpose, a matmul of the
    transposed forward input against the output gradient, and marks that
    matmul's output virtual under the layer's name followed by
    [_weights_matmul_out_bwd]. *)
Theorem backward_weight_gradient (dY X fo : TRef) (w : World) (x : Tensor_attributes) :
  heap w !! X = Some x ->
  2 <= vec_size (ta_dim x) < SIZE_T_MOD ->
  2 <= vec_size (t_shape (weights_ (self w))) < SIZE_T_MOD ->
  let l := self w in
  let n := length (heap w) in
  let mm := mkMatmulAttr (t_data_type (weights_grad_ l)) in
  let red := mkReductionAttr (t_data_type (bias_grad_ l)) RED_ADD in
  let x' := reshaped l (logical_transpose (ta_dim x)) x in
  exists (r : TRef) (w' : World) (h1 : list Tensor_attributes),
    add_backward_to_graph reg dY X fo w = (Ok r, w')
    /\ swap_last_two (ta_dim x) = Some (logical_transpose (ta_dim x))
    /\ heap w' !! X = Some x'
    /\ ta_name x' = ta_name x
    /\ graph w' = graph w ++ [OpMatmul X dY mm (n + 1)%nat; OpReduction dY red (n + 3)%nat;
                              OpMatmul dY (n + 4)%nat mm (n + 5)%nat]
    /\ h1 !! X = Some x'
    /\ heap w' !! (n + 1)%nat
         = Some (named_output l "_weights_matmul_out_bwd" (reg_matmul reg h1 X dY mm))
    /\ (ta_is_virtual <$> heap w' !! (n + 1)%nat) = Some true
    /\ (ta_name <$> heap w' !! (n + 1)%nat) = Some (name_ l +:+ "_weights_matmul_out_bwd").
Proof.
  intros HX Hx Hw. cbv zeta. backward_facts dY fo HX Hx Hw.
  eexists _, _, _. split; [exact Hrun|]. cbn [heap graph self].
  split; [by apply swap_last_two_transpose|].
  split; [rewrite lookup_app_l by (by rewrite length_insert);
          by apply list_lookup_insert_eq|].
  split; [done|]. split; [done|].
  split; [rewrite lookup_app_l by (by rewrite length_insert);
          by apply list_lookup_insert_eq|].
  split; [new_node|]. split; new_node.
Qed.

(** X9. When both shapes can be transposed, [add_backward_to_graph] issues, as
    the second of its three operations, a reduction with mode ADD (and the
    bias gradient's data type as compute type) over the output gradient,
    and marks that reduction's output virtual under the layer's name
    followed by [_bias_add_out_bwd]. The request names the mode and the
    compute type; which dimensions are summed is left to the graph. *)
Theorem backward_bias_gradient (dY X fo : TRef) (w : World) (x : Tensor_attributes) :
  heap w !! X = Some x ->
  2 <= vec_size (ta_dim x) < SIZE_T_MOD ->
  2 <= vec_size (t_shape (weights_ (self w))) < SIZE_T_MOD ->
  let l := self w in
  let n := length (heap w) in
  let mm := mkMatmulAttr (t_data_type (weights_grad_ l)) in
  let red := mkReductionAttr (t_data_type (bias_grad_ l)) RED_ADD in
  exists (r : TRef) (w' : World) (h2 : list Tensor_attributes),
    add_backward_to_graph reg dY X fo w = (Ok r, w')
    /\ graph w' = graph w ++ [OpMatmul X dY mm (n + 1)%nat; OpReduction dY red (n + 3)%nat;
                              OpMatmul dY (n + 4)%nat mm (n + 5)%nat]
    /\ red_mode red = RED_ADD
    /\ heap w' !! (n + 3)%nat
         = Some (named_output l "_bias_add_out_bwd" (reg_reduction reg h2 dY red))
    /\ (ta_is_virtual <$> heap w' !! (n + 3)%nat) = Some true
    /\ (ta_name <$> heap w' !! (n + 3)%nat) = Some (name_ l +:+ "_bias_add_out_bwd").
Proof.
  intros HX Hx Hw. cbv zeta. backward_facts dY fo HX Hx Hw.
  eexists _, _, _. split; [exact Hrun|]. cbn [heap graph self].
  split; [done|]. split; [done|].
  split; [new_node|]. split; new_node.
Qed.

(** C9. With a readable forward input: when its shape and the weight shape
    both have at least two dimensions, the positions the two swaps touch
    ([size - 1] and [size - 2], computed in [size_t]) lie inside the
    vectors, both swaps succeed and the call returns, so it never stops
    with [OutOfBounds]. The code checks no length itself: as soon as one of
    the two shapes is shorter, the call stops with [OutOfBounds]. *)
Theorem backward_swaps_in_bounds (dY X fo : TRef) (w : World) (x : Tensor_attributes) :
  heap w !! X = Some x ->
  let sx := ta_dim x in
  let sw := t_shape (weights_ (self w)) in
  (2 <= vec_size sx /\ 2 <= vec_size sw ->
     0 <= size_sub (vec_size sx) 1 < vec_size sx
     /\ 0 <= size_sub (vec_size sx) 2 < vec_size sx
     /\ 0 <= size_sub (vec_size sw) 1 < vec_size sw
     /\ 0 <= size_sub (vec_size sw) 2 < vec_size sw
     /\ (vec_size sx < SIZE_T_MOD ->
         size_sub (vec_size sx) 1 = vec_size sx - 1
         /\ size_sub (vec_size sx) 2 = vec_size sx - 2)
     /\ (vec_size sw < SIZE_T_MOD ->
         size_sub (vec_size sw) 1 = vec_size sw - 1
         /\ size_sub (vec_size sw) 2 = vec_size sw - 2)
     /\ is_Some (swap_last_two sx)
     /\ is_Some (swap_last_two sw)
     /\ exists (r : TRef) (w' : World), add_backward_to_graph reg dY X fo w = (Ok r, w'))
  /\ (vec_size sx < 2 \/ vec_size sw < 2 ->
      (add_backward_to_graph reg dY X fo w).1 = Err OutOfBounds).
Proof.
  intros HX. cbv zeta. split.
  - intros [Hx Hw].
    destruct (swap_last_two_is_Some _ Hx) as [tx Htx].
    destruct (swap_last_two_is_Some _ Hw) as [tw Htw].
    repeat split;
      try (apply size_sub_in_bounds; lia); try (apply size_sub_small; lia); eauto.
    eexists _, _. exact (add_backward_to_graph_run dY X fo w x _ _ HX Htx Htw).
  - intros Hshort.
    destruct (decide (vec_size (ta_dim x) < 2)) as [Hx | Hx].
    + apply (add_backward_to_graph_short_input dY X fo w x); [done|].
      by apply swap_last_two_short.
    + destruct Hshort as [? | Hw]; [lia|].
      destruct (swap_last_two_is_Some (ta_dim x)) as [tx Htx]; [lia|].
      apply (add_backward_to_graph_short_weights dY X fo w x tx); [done | done |].
      by apply swap_last_two_short.
Qed.

(** C2, as amended. When the forward input can be read and both shapes can be
    transposed, [add_backward_to_graph] makes a new descriptor from the
    weights, swaps its last two dimensions, issues as its last operation a
    matmul of the output gradient against that descriptor, marks the result
    virtual under the layer's name followed by [_output_bwd] and returns
    it. The builder sets no shape on the result: its shape is the one the
    graph gave the output of that matmul. When the graph infers a product's
    shape from its operands, the output gradient is [batch ++ [n_out]], the
    weights are [[n_in; n_out]] and the forward input is [batch ++ [n_in]],
    held by another descriptor than the output gradient, that shape is the
    one the forward input had before the call. The forward input itself is
    left transposed. *)
Theorem backward_input_gradient (dY X fo : TRef) (w : World) (x : Tensor_attributes) :
  heap w !! X = Some x ->
  2 <= vec_size (ta_dim x) < SIZE_T_MOD ->
  2 <= vec_size (t_shape (weights_ (self w))) < SIZE_T_MOD ->
  let l := self w in
  let n := length (heap w) in
  let mm := mkMatmulAttr (t_data_type (weights_grad_ l)) in
  let red := mkReductionAttr (t_data_type (bias_grad_ l)) RED_ADD in
  let wt := reshaped l (logical_transpose (t_shape (weights_ l))) (of_tensor (weights_ l)) in
  exists (w' : World) (h3 : list Tensor_attributes) (dX : Tensor_attributes),
    add_backward_to_graph reg dY X fo w = (Ok (n + 5)%nat, w')
    /\ heap w' !! (n + 4)%nat = Some wt
    /\ h3 !! (n + 4)%nat = Some wt
    /\ (forall dy : Tensor_attributes, heap w !! dY = Some dy -> X <> dY -> h3 !! dY = Some dy)
    /\ graph w' = graph w ++ [OpMatmul X dY mm (n + 1)%nat; OpReduction dY red (n + 3)%nat;
                              OpMatmul dY (n + 4)%nat mm (n + 5)%nat]
    /\ returned_node (add_backward_to_graph reg dY X fo w) = Some dX
    /\ dX = named_output l "_output_bwd" (reg_matmul reg h3 dY (n + 4)%nat mm)
    /\ ta_is_virtual dX = true
    /\ ta_name dX = name_ l +:+ "_output_bwd"
    /\ ta_dim dX = ta_dim (reg_matmul reg h3 dY (n + 4)%nat mm)
    /\ heap w' !! X = Some (reshaped l (logical_transpose (ta_dim x)) x)
    /\ (forall (dy : Tensor_attributes) (batch : list Z) (n_in n_out : Z),
          (forall h a b attrs,
             ta_dim (reg_matmul reg h a b attrs) = matmul_dim (dim_of h a) (dim_of h b)) ->
          heap w !! dY = Some dy ->
          X <> dY ->
          ta_dim x = batch ++ [n_in] ->
          ta_dim dy = batch ++ [n_out] ->
          t_shape (weights_ l) = [n_in; n_out] ->
          ta_dim dX = ta_dim x).
Proof.
  intros HX Hx Hw. cbv zeta. backward_facts dY fo HX Hx Hw.
  lazymatch type of Hrun with
  | _ = (_, mkWorld (?base ++ [?a; ?b; ?c; ?d; ?e; ?f]) ?g ?l) =>
      exists (mkWorld (base ++ [a; b; c; d; e; f]) g l), (base ++ [a; b; c; d; e]), f
  end.
  assert (HdY : forall dy : Tensor_attributes,
            heap w !! dY = Some dy -> X <> dY ->
            (<[X:=reshaped (self w) (logical_transpose (ta_dim x)) x]> (heap w)
             ++ [of_tensor (weights_grad_ (self w));
                 named_output (self w) "_weights_matmul_out_bwd"
                   (reg_matmul reg
                      (<[X:=reshaped (self w) (logical_transpose (ta_dim x)) x]> (heap w)
                       ++ [of_tensor (weights_grad_ (self w))]) X dY
                      (mkMatmulAttr (t_data_type (weights_grad_ (self w)))));
                 of_tensor (bias_grad_ (self w));
                 named_output (self w) "_bias_add_out_bwd"
                   (reg_reduction reg
                      (<[X:=reshaped (self w) (logical_transpose (ta_dim x)) x]> (heap w)
                       ++ [of_tensor (weights_grad_ (self w));
                           named_output (self w) "_weights_matmul_out_bwd"
                             (reg_matmul reg
                                (<[X:=reshaped (self w) (logical_transpose (ta_dim x)) x]>
                                   (heap w)
                                 ++ [of_tensor (weights_grad_ (self w))]) X dY
                                (mkMatmulAttr (t_data_type (weights_grad_ (self w)))));
                           of_tensor (bias_grad_ (self w))]) dY
                      (mkReductionAttr (t_data_type (bias_grad_ (self w))) RED_ADD));
                 reshaped (self w) (logical_transpose (t_shape (weights_ (self w))))
                   (of_tensor (weights_ (self w)))]) !! dY = Some dy).
  { intros dy Hdy Hne. pose proof (lookup_lt_Some _ _ _ Hdy) as HltY.
    rewrite lookup_app_l by (by rewrite length_insert).
    by rewrite list_lookup_insert_ne. }
  split; [exact Hrun|]. rewrite Hrun. cbn [heap graph self returned_node].
  split; [new_node|]. split; [new_node|]. split; [exact HdY|].
  split; [done|]. split; [new_node|]. split; [done|]. split; [done|].
  split; [done|]. split; [done|].
  split; [rewrite lookup_app_l by (by rewrite length_insert);
          by apply list_lookup_insert_eq|].
  intros dy batch n_in n_out Hreg Hdy Hne Hdx Hdd Hdw.
  cbn [named_output set_data_type set_name set_is_virtual ta_dim].
  rewrite Hreg. unfold dim_of at 1. rewrite (HdY dy Hdy Hne).
  unfold dim_of. rewrite lookup_fresh by (by rewrite length_insert). cbn.
  rewrite Hdd, Hdx, Hdw. change (logical_transpose [n_in; n_out]) with [n_out; n_in].
  unfold matmul_dim. rewrite length_app. cbn.
  replace (length batch + 1 - 1)%nat with (length batch) by lia.
  by rewrite take_app_length.
Qed.

End Backward.

(** The shape-inferring registry gives a product the shape [matmul_dim]
    computes. *)
Lemma infer_registry_matmul h a b attrs :
  ta_dim (reg_matmul infer_registry h a b attrs) = matmul_dim (dim_of h a) (dim_of h b).
Proof. reflexivity. Qed.

Lemma example_shapes_fit :
  2 <= vec_size [8; 4] < SIZE_T_MOD /\ 2 <= vec_size [4; 3] < SIZE_T_MOD.
Proof. by compute. Qed.

(** The weight-gradient step on the example of section 8. *)
Lemma backward_weight_gradient_example :
  (2 <= vec_size [8; 4] < SIZE_T_MOD /\ 2 <= vec_size [4; 3] < SIZE_T_MOD)
  /\ exists (r : TRef) (w' : World),
       add_backward_to_graph infer_registry 1%nat 0%nat 0%nat example_world = (Ok r, w')
       /\ heap w' !! 0%nat = Some (mkTA "X" FLOAT [4; 8] true)
       /\ (ta_name <$> heap w' !! 3%nat) = Some "fc1_weights_matmul_out_bwd".
Proof.
  split; [exact example_shapes_fit|].
  destruct (backward_weight_gradient infer_registry 1%nat 0%nat 0%nat example_world
              (mkTA "X" FLOAT [8; 4] false) eq_refl
              (proj1 example_shapes_fit) (proj2 example_shapes_fit))
    as (r & w' & h1 & Hrun & _ & HX & _ & _ & _ & _ & _ & Hname).
  exists r, w'. split; [exact Hrun|]. split; [exact HX | exact Hname].
Defined.

(** The bias-gradient step on the same example. *)
Lemma backward_bias_gradient_example :
  (2 <= vec_size [8; 4] < SIZE_T_MOD /\ 2 <= vec_size [4; 3] < SIZE_T_MOD)
  /\ exists (r : TRef) (w' : World),
       add_backward_to_graph infer_registry 1%nat 0%nat 0%nat example_world = (Ok r, w')
       /\ graph w' = [OpMatmul 0%nat 1%nat (mkMatmulAttr FLOAT) 3%nat;
                      OpReduction 1%nat (mkReductionAttr FLOAT RED_ADD) 5%nat;
                      OpMatmul 1%nat 6%nat (mkMatmulAttr FLOAT) 7%nat]
       /\ (ta_name <$> heap w' !! 5%nat) = Some "fc1_bias_add_out_bwd".
Proof.
  split; [exact example_shapes_fit|].
  destruct (backward_bias_gradient infer_registry 1%nat 0%nat 0%nat example_world
              (mkTA "X" FLOAT [8; 4] false) eq_refl
              (proj1 example_shapes_fit) (proj2 example_shapes_fit))
    as (r & w' & h2 & Hrun & Hgraph & _ & _ & _ & Hname).
  exists r, w'. split; [exact Hrun|]. split; [exact Hgraph | exact Hname].
Defined.

(** The input-gradient step on the same example: the result has the shape
    [[8; 4]] of the forward input. *)
Lemma backward_input_gradient_example :
  exists (w' : World) (dX : Tensor_attributes),
    add_backward_to_graph infer_registry 1%nat 0%nat 0%nat example_world = (Ok 7%nat, w')
    /\ returned_node (add_backward_to_graph infer_registry 1%nat 0%nat 0%nat example_world)
         = Some dX
    /\ ta_dim dX = [8; 4]
    /\ heap w' !! 0%nat = Some (mkTA "X" FLOAT [4; 8] true).
Proof.
  destruct (backward_input_gradient infer_registry 1%nat 0%nat 0%nat example_world
              (mkTA "X" FLOAT [8; 4] false) eq_refl
              (proj1 example_shapes_fit) (proj2 example_shapes_fit))
    as (w' & h3 & dX & Hrun & _ & _ & _ & _ & Hret & _ & _ & _ & _ & HX & Hshape).
  exists w', dX. split; [exact Hrun|]. split; [exact Hret|]. split; [|exact HX].
  exact (Hshape (mkTA "dY" FLOAT [8; 3] false) [8] 4 3 infer_registry_matmul
           eq_refl ltac:(done) eq_refl eq_refl eq_refl).
Defined.

Lemma infer_registry_local : matmul_local infer_registry.
Proof. intros h h' a b attrs Ha Hb. cbn. unfold dim_of. by rewrite Ha, Hb. Qed.

Lemma unset_registry_local : matmul_local unset_registry.
Proof. by intros h h' a b attrs Ha Hb. Qed.

(** C2, as stated, fails, whatever the graph does with a matmul request. The
    builder hands the last matmul the output gradient and the transposed
    weights, and nothing of the forward input. Take the example of section
    8 and the same call with a forward input of shape [[5; 4]] instead of
    [[8; 4]]: for every registry whose matmul output depends on the request
    alone, the two calls return descriptors of the same shape, so one of
    them does not have the shape of its forward input. A shape-inferring
    registry and one that leaves shapes unset are such registries; with
    the latter the returned shape is empty even on the example. *)
Lemma backward_input_gradient_shape_differs :
  exists w1 w2 : World,
    w1 = example_world
    /\ w2 = other_input_world
    /\ matmul_local infer_registry
    /\ matmul_local unset_registry
    /\ (ta_dim <$> returned_node (add_backward_to_graph unset_registry 1%nat 0%nat 0%nat w1))
       = Some []
    /\ (forall reg : Registry,
          matmul_local reg ->
          (ta_dim <$> returned_node (add_backward_to_graph reg 1%nat 0%nat 0%nat w1))
            <> (ta_dim <$> heap w1 !! 0%nat)
          \/ (ta_dim <$> returned_node (add_backward_to_graph reg 1%nat 0%nat 0%nat w2))
               <> (ta_dim <$> heap w2 !! 0%nat)).
Proof.
  exists example_world, other_input_world.
  split; [done|]. split; [done|].
  split; [exact infer_registry_local|]. split; [exact unset_registry_local|].
  split; [reflexivity|].
  intros reg Hloc.
  pose proof (add_backward_to_graph_run reg 1%nat 0%nat 0%nat example_world
                (mkTA "X" FLOAT [8; 4] false) [4; 8] [3; 4] eq_refl eq_refl eq_refl) as H1.
  pose proof (add_backward_to_graph_run reg 1%nat 0%nat 0%nat other_input_world
                (mkTA "X" FLOAT [5; 4] false) [4; 5] [3; 4] eq_refl eq_refl eq_refl) as H2.
  cbv zeta in H1, H2. rewrite H1, H2. clear H1 H2.
  cbn [returned_node heap example_world other_input_world length Nat.add].
  cbn.
  match goal with
  | |- Some (ta_dim (reg_matmul reg ?ha ?a ?b ?m)) <> _
       \/ Some (ta_dim (reg_matmul reg ?hb _ _ _)) <> _ =>
      rewrite (Hloc ha hb a b m eq_refl eq_refl);
      destruct (decide (ta_dim (reg_matmul reg hb a b m) = [8; 4])) as [-> | Hne]
  end.
  - right. discriminate.
  - left. congruence.
Qed.

(** The swaps on the same example stay inside the vectors. *)
Lemma backward_swaps_in_bounds_example :
  heap example_world !! 0%nat = Some (mkTA "X" FLOAT [8; 4] false)
  /\ exists (r : TRef) (w' : World),
       add_backward_to_graph infer_registry 1%nat 0%nat 0%nat example_world = (Ok r, w').
Proof.
  split; [reflexivity|].
  destruct (backward_swaps_in_bounds infer_registry 1%nat 0%nat 0%nat example_world
              (mkTA "X" FLOAT [8; 4] false) eq_refl) as [Hin _].
  destruct (Hin ltac:(by compute)) as (_ & _ & _ & _ & _ & _ & _ & _ & Hrun).
  exact Hrun.
Defined.

(** C1 fails on the code. On the example of section 8 the descriptors made from
    the gradient tensors (handles 2 and 4) are operands or outputs of no
    operation: the handles are overwritten by the outputs of the matmul and
    of the reduction (handles 3 and 5), which are new virtual descriptors.
    The layer's gradient tensors are left as they were. *)
Theorem backward_leaves_gradients_unwired :
  exists w' : World,
    add_backward_to_graph infer_registry 1%nat 0%nat 0%nat example_world = (Ok 7%nat, w')
    /\ heap w' !! 2%nat = Some (of_tensor (weights_grad_ example_layer))
    /\ heap w' !! 4%nat = Some (of_tensor (bias_grad_ example_layer))
    /\ graph w' = [OpMatmul 0%nat 1%nat (mkMatmulAttr FLOAT) 3%nat;
                   OpReduction 1%nat (mkReductionAttr FLOAT RED_ADD) 5%nat;
                   OpMatmul 1%nat 6%nat (mkMatmulAttr FLOAT) 7%nat]
    /\ Forall (fun o => (2%nat ∉ op_handles o) /\ (4%nat ∉ op_handles o)) (graph w')
    /\ heap w' !! 3%nat = Some (mkTA "fc1_weights_matmul_out_bwd" FLOAT [4; 3] true)
    /\ heap w' !! 5%nat = Some (mkTA "fc1_bias_add_out_bwd" FLOAT [3] true)
    /\ self w' = example_layer.
Proof.
  exists (add_backward_to_graph infer_registry 1%nat 0%nat 0%nat example_world).2.
  repeat split; try (vm_compute; reflexivity).
  apply (bool_decide_unpack _). by vm_compute.
Qed.

(** ** The accessors *)

(** C8. [get_parameters] returns the addresses of the weights and of the bias, in
    this order, and [get_gradients] those of the weight gradient and of the
    bias gradient, in this order. They are addresses of the layer's own
    members, not copies: read in any state of the layer they give the
    member as it then is. Neither call can fail or changes anything, and
    calling twice gives the same addresses again. *)
Theorem accessors_return_members (w : World) :
  get_parameters w = (Ok [addr_weights_; addr_bias_], w)
  /\ get_gradients w = (Ok [addr_weights_grad_; addr_bias_grad_], w)
  /\ (forall l : DenseLayer,
        pointee l <$> [addr_weights_; addr_bias_] = [weights_ l; bias_ l]
        /\ pointee l <$> [addr_weights_grad_; addr_bias_grad_]
           = [weights_grad_ l; bias_grad_ l])
  /\ (p1 ← get_parameters; p2 ← get_parameters; mret (p1, p2)) w
       = (Ok ([addr_weights_; addr_bias_], [addr_weights_; addr_bias_]), w)
  /\ (g1 ← get_gradients; g2 ← get_gradients; mret (g1, g2)) w
       = (Ok ([addr_weights_grad_; addr_bias_grad_],
              [addr_weights_grad_; addr_bias_grad_]), w)
  /\ (forall w0 : World,
        (get_parameters w0).1 = (get_parameters w).1
        /\ (get_gradients w0).1 = (get_gradients w).1).
Proof. repeat split. Qed.

(** ** The initialiser *)

Lemma with_host_id w : with_host (t_host (weights_ (self w))) w = w.
Proof. by destruct w as [h g [nm dt [] b wg bg]]. Qed.

Lemma with_host_twice b1 b2 w : with_host b2 (with_host b1 w) = with_host b2 w.
Proof. reflexivity. Qed.

Lemma host_store_run (off : nat) (bs : list byte) (w : World) :
  (off + length bs <= length (t_host (weights_ (self w))))%nat ->
  host_store (Z.of_nat off) bs w
  = (Ok tt,
     with_host (take off (t_host (weights_ (self w))) ++ bs
                ++ drop (off + length bs) (t_host (weights_ (self w)))) w).
Proof.
  intros H. unfold host_store, mbind, M_bind, get_self, put_self.
  rewrite bool_decide_eq_true_2 by lia. by rewrite Nat2Z.id.
Qed.

(** Overwriting a slice: what lies before and after it. *)
Lemma take_after_store (buf xs : list byte) (a : nat) :
  (a + length xs <= length buf)%nat ->
  take (a + length xs) (take a buf ++ xs ++ drop (a + length xs) buf) = take a buf ++ xs.
Proof.
  intros H. rewrite app_assoc. apply take_app_length'.
  rewrite length_app, length_take. lia.
Qed.

Lemma drop_after_store (buf xs : list byte) (a c : nat) :
  (a + length xs <= length buf)%nat -> (a + length xs <= c)%nat ->
  drop c (take a buf ++ xs ++ drop (a + length xs) buf) = drop c buf.
Proof.
  intros H Hc. rewrite app_assoc, drop_app_ge; rewrite length_app, length_take; [|lia].
  rewrite drop_drop. f_equal. lia.
Qed.

Lemma length_after_store (buf xs : list byte) (a : nat) :
  (a + length xs <= length buf)%nat ->
  length (take a buf ++ xs ++ drop (a + length xs) buf) = length buf.
Proof. intros H. rewrite !length_app, length_take, length_drop. lia. Qed.

Section Initialiser.
Context (rnd : StdRandom).

Lemma length_drawn_bytes {D} width (dist : D -> Engine rnd -> Z * D * Engine rnd) n d gen :
  length (drawn_bytes rnd width dist n d gen) = (width * n)%nat.
Proof.
  revert d gen. induction n as [|n IH]; intros d gen; simpl; [lia|].
  destruct (dist d gen) as [[x d'] gen'].
  rewrite length_app, length_le_split, IH. lia.
Qed.

(** The loop, from [i] on, with [k] elements left to write: it stores the
    next [k] values drawn behind the first [i] elements and stops. *)
Lemma fill_loop_run {D} width (dist : D -> Engine rnd -> Z * D * Engine rnd) :
  forall (k i fuel : nat) (d : D) (gen : Engine rnd) (w : World),
    Z.of_nat (i + k) <= INT_MAX ->
    (width * (i + k) <= length (t_host (weights_ (self w))))%nat ->
    (k <= fuel)%nat ->
    fill_loop rnd width dist fuel (Z.of_nat i) (Z.of_nat (i + k)) d gen w
    = (Ok tt,
       with_host (take (width * i) (t_host (weights_ (self w)))
                  ++ drawn_bytes rnd width dist k d gen
                  ++ drop (width * (i + k)) (t_host (weights_ (self w)))) w).
Proof.
  induction k as [|k IH]; intros i fuel d gen w Hmax Hlen Hfuel.
  - rewrite Nat.add_0_r. destruct fuel; simpl;
      rewrite bool_decide_eq_false_2 by
        (rewrite Z.mod_small by (unfold INT_MAX, SIZE_T_MOD in *; lia); lia);
      cbn [drawn_bytes app]; by rewrite take_drop, with_host_id.
  - destruct fuel as [|fuel]; [lia|]. simpl.
    rewrite bool_decide_eq_true_2 by
      (rewrite Z.mod_small by (unfold INT_MAX, SIZE_T_MOD in *; lia); lia).
    destruct (dist d gen) as [[x d'] gen'].
    unfold mbind, M_bind.
    rewrite <- Nat2Z.inj_mul.
    pose proof (length_le_split width x) as Hx.
    rewrite host_store_run by (rewrite Hx; lia).
    rewrite bool_decide_eq_true_2 by lia.
    replace (Z.of_nat i + 1) with (Z.of_nat (S i)) by lia.
    replace (i + S k)%nat with (S i + k)%nat by lia.
    rewrite IH; [|lia| |lia].
    + rewrite with_host_twice. f_equal. f_equal.
      cbn [self weights_ set_weights t_host set_host with_host].
      replace (width * S i)%nat with (width * i + length (le_split width x))%nat
        by (rewrite Hx; lia).
      rewrite take_after_store by (rewrite Hx; lia).
      rewrite drop_after_store by (rewrite Hx; lia).
      by rewrite <- !app_assoc.
    + cbn [self weights_ set_weights t_host set_host with_host].
      rewrite length_after_store by (rewrite Hx; lia). lia.
Qed.

(** The fuel given to the loop is a device of the model only: a loop
    entered with at least [num_elem - i] units never runs out of it. *)
Lemma fill_loop_enough_fuel {D} width (dist : D -> Engine rnd -> Z * D * Engine rnd) :
  forall (fuel : nat) (i n : Z) (d : D) (gen : Engine rnd) (w : World),
    0 <= i <= INT_MAX ->
    n - i <= Z.of_nat fuel ->
    (fill_loop rnd width dist fuel i n d gen w).1 <> Err OutOfFuel.
Proof.
  induction fuel as [|fuel IH]; intros i n d gen w Hi Hfuel; simpl;
    rewrite Z.mod_small by (unfold INT_MAX, SIZE_T_MOD in *; lia);
    case_bool_decide; try done; [lia|].
  destruct (dist d gen) as [[x d'] gen']. unfold mbind, M_bind.
  destruct (host_store (Z.of_nat width * i) (le_split width x) w) as [[[]|e] w1] eqn:Hst.
  - case_bool_decide; [|done]. apply IH; lia.
  - unfold host_store, mbind, M_bind, get_self, put_self, fail in Hst.
    case_bool_decide; simplify_eq; done.
Qed.

(** With more than [INT_MAX] elements the [int] counter cannot reach
    [num_elem] without undefined behaviour: the model never follows such a
    loop to its end. *)
Lemma fill_loop_counter_overflow {D} width (dist : D -> Engine rnd -> Z * D * Engine rnd) :
  forall (fuel : nat) (i n : Z) (d : D) (gen : Engine rnd) (w : World),
    0 <= i <= INT_MAX ->
    INT_MAX < n ->
    exists (e : Failure) (w' : World),
      fill_loop rnd width dist fuel i n d gen w = (Err e, w').
Proof.
  induction fuel as [|fuel IH]; intros i n d gen w Hi Hn; simpl;
    rewrite Z.mod_small by (unfold INT_MAX, SIZE_T_MOD in *; lia);
    rewrite bool_decide_eq_true_2 by lia; [by eexists _, _|].
  destruct (dist d gen) as [[x d'] gen']. unfold mbind, M_bind.
  destruct (host_store (Z.of_nat width * i) (le_split width x) w) as [[[]|e] w1].
  - case_bool_decide; [apply IH; lia | by eexists _, _].
  - by eexists _, _.
Qed.

Lemma get_num_elements_nonneg (t : Tensor) : 0 <= get_num_elements t.
Proof. unfold get_num_elements. by apply Z.mod_pos_bound. Qed.

(** A layer configured as float or double, with host storage for its
    elements: the call returns, and the storage starts with the bytes of
    the values drawn. *)
Lemma initialize_parameters_norm_run (seed : Z) (w : World) :
  is_on_host (weights_ (self w)) = true ->
  data_type_ (self w) = FLOAT \/ data_type_ (self w) = DOUBLE ->
  get_num_elements (weights_ (self w)) <= INT_MAX ->
  let n := Z.to_nat (get_num_elements (weights_ (self w))) in
  let width := sizeof_configured (data_type_ (self w)) in
  (width * n <= length (t_host (weights_ (self w))))%nat ->
  initialize_parameters_norm rnd seed w
  = (Ok tt,
     with_host (initial_bytes rnd (data_type_ (self w)) seed n
                ++ drop (width * n) (t_host (weights_ (self w)))) w).
Proof.
  intros Hhost Hdt Hmax n width Hlen. subst n width.
  pose proof (get_num_elements_nonneg (weights_ (self w))) as Hn.
  unfold initialize_parameters_norm, mbind, M_bind, get_self, USHIONN_ASSERT.
  rewrite Hhost. cbn [mret M_ret].
  set (k := Z.to_nat (get_num_elements (weights_ (self w)))) in *.
  assert (Hk : Z.of_nat (0 + k) = get_num_elements (weights_ (self w)))
    by (subst k; lia).
  change 0 with (Z.of_nat 0). rewrite <- Hk in *. clearbody k.
  destruct Hdt as [Hdt | Hdt]; rewrite Hdt in *; cbn [sizeof_configured] in Hlen;
    repeat case_decide; try congruence; cbn [initial_bytes sizeof_configured].
  - rewrite fill_loop_run by lia.
    by rewrite Nat.mul_0_r, take_0.
  - rewrite fill_loop_run by lia.
    by rewrite Nat.mul_0_r, take_0.
Qed.

(** The call never stops for lack of fuel. *)
Lemma initialize_parameters_norm_fuel (seed : Z) (w : World) :
  (initialize_parameters_norm rnd seed w).1 <> Err OutOfFuel.
Proof.
  pose proof (get_num_elements_nonneg (weights_ (self w))) as Hn.
  unfold initialize_parameters_norm, mbind, M_bind, get_self, USHIONN_ASSERT.
  destruct (is_on_host (weights_ (self w))); [|done]. cbn [mret M_ret].
  repeat case_decide; try done;
    apply fill_loop_enough_fuel; unfold INT_MAX; lia.
Qed.

(** A float or double layer with more than [INT_MAX] weights: the call
    runs into undefined behaviour, which is why the statements below stay
    within [INT_MAX] elements. *)
Lemma initialize_parameters_norm_counter_overflow (seed : Z) (w : World) :
  is_on_host (weights_ (self w)) = true ->
  data_type_ (self w) = FLOAT \/ data_type_ (self w) = DOUBLE ->
  INT_MAX < get_num_elements (weights_ (self w)) ->
  exists (e : Failure) (w' : World),
    initialize_parameters_norm rnd seed w = (Err e, w') /\ e <> OutOfFuel.
Proof.
  intros Hhost Hdt Hn.
  pose proof (initialize_parameters_norm_fuel seed w) as Hfuel. revert Hfuel.
  unfold initialize_parameters_norm, mbind, M_bind, get_self, USHIONN_ASSERT.
  rewrite Hhost. cbn [mret M_ret].
  destruct Hdt as [Hdt | Hdt]; rewrite Hdt; repeat case_decide; try congruence.
  - destruct (fill_loop_counter_overflow sizeof_float (draw_float rnd)
                (Z.to_nat (get_num_elements (weights_ (self w)))) 0
                (get_num_elements (weights_ (self w))) (normal_float rnd)
                (mt19937 rnd seed) w) as (e & w' & ->); [by compute | done |].
    intros Hfuel. exists e, w'. split; [done|]. intros ->. by apply Hfuel.
  - destruct (fill_loop_counter_overflow sizeof_double (draw_double rnd)
                (Z.to_nat (get_num_elements (weights_ (self w)))) 0
                (get_num_elements (weights_ (self w))) (normal_double rnd)
                (mt19937 rnd seed) w) as (e & w' & ->); [by compute | done |].
    intros Hfuel. exists e, w'. split; [done|]. intros ->. by apply Hfuel.
Qed.

(** C7, as amended. Take two layers whose configured data type is the same,
    float or double, whose weight tensors are on the host, have the same
    shape with at most [INT_MAX] elements, and whose host storage holds
    that many elements of the configured type. Called with the same seed,
    [initialize_parameters_norm] returns on both and leaves the same bytes
    in both, whatever the storage held before: the values drawn, one per
    element, in the order drawn, each at the place of its index. Nothing
    but the weight tensor's host storage changes. *)
Theorem initialize_parameters_norm_deterministic (seed : Z) (w1 w2 : World) :
  is_on_host (weights_ (self w1)) = true ->
  is_on_host (weights_ (self w2)) = true ->
  data_type_ (self w1) = data_type_ (self w2) ->
  data_type_ (self w1) = FLOAT \/ data_type_ (self w1) = DOUBLE ->
  t_shape (weights_ (self w1)) = t_shape (weights_ (self w2)) ->
  get_num_elements (weights_ (self w1)) <= INT_MAX ->
  let n := Z.to_nat (get_num_elements (weights_ (self w1))) in
  let dt := data_type_ (self w1) in
  length (t_host (weights_ (self w1))) = (sizeof_configured dt * n)%nat ->
  length (t_host (weights_ (self w2))) = (sizeof_configured dt * n)%nat ->
  exists b : list byte,
    initialize_parameters_norm rnd seed w1 = (Ok tt, with_host b w1)
    /\ initialize_parameters_norm rnd seed w2 = (Ok tt, with_host b w2)
    /\ b = initial_bytes rnd dt seed n
    /\ length b = (sizeof_configured dt * n)%nat.
Proof.
  intros Hh1 Hh2 Hdt Hfd Hshape Hmax n dt Hl1 Hl2. subst n dt.
  assert (Hn : get_num_elements (weights_ (self w2)) = get_num_elements (weights_ (self w1)))
    by (unfold get_num_elements; by rewrite Hshape).
  exists (initial_bytes rnd (data_type_ (self w1)) seed
            (Z.to_nat (get_num_elements (weights_ (self w1))))).
  split; [|split; [|split]].
  - rewrite initialize_parameters_norm_run by (done || lia).
    by rewrite <- Hl1, drop_all, app_nil_r.
  - rewrite initialize_parameters_norm_run;
      rewrite <- ?Hdt, ?Hn; [|done|done|done|lia].
    by rewrite <- Hl2, drop_all, app_nil_r.
  - done.
  - destruct Hfd as [-> | ->]; cbn [initial_bytes sizeof_configured];
      apply length_drawn_bytes.
Qed.

(** C5, as amended. Called while the weight tensor is not on the host,
    [initialize_parameters_norm] stops with the precondition failure of
    line 97, whatever the data types are. Called on host-resident weights
    of a layer whose configured data type is INT32, it stops with the
    unsupported-configuration failure of line 115. In both cases the
    world is left exactly as it was. *)
Theorem initialize_parameters_norm_failures (seed : Z) (w : World) :
  (is_on_host (weights_ (self w)) = false ->
   initialize_parameters_norm rnd seed w
   = (Err (PreconditionFailure "The weight to initialize must be on the host"), w))
  /\ (is_on_host (weights_ (self w)) = true ->
      data_type_ (self w) = INT32 ->
      initialize_parameters_norm rnd seed w
      = (Err (UnsupportedFatal
                "This library does not yet support integer weight initialization"), w)).
Proof.
  split.
  - intros Hhost.
    unfold initialize_parameters_norm, mbind, M_bind, get_self, USHIONN_ASSERT.
    by rewrite Hhost.
  - intros Hhost Hdt.
    unfold initialize_parameters_norm, mbind, M_bind, get_self, USHIONN_ASSERT.
    by rewrite Hhost, Hdt.
Qed.

(** C10, as amended. The branch taken depends on the layer's configured data
    type alone; the weight tensor's own data type is never read. When the
    weight tensor is on the host and the configured type is none of FLOAT,
    DOUBLE and INT32, the call returns and the world is exactly as it
    was. *)
Theorem initialize_parameters_norm_other_types (seed : Z) (w : World) :
  is_on_host (weights_ (self w)) = true ->
  data_type_ (self w) <> FLOAT ->
  data_type_ (self w) <> DOUBLE ->
  data_type_ (self w) <> INT32 ->
  initialize_parameters_norm rnd seed w = (Ok tt, w).
Proof.
  intros Hhost Hf Hd Hi.
  unfold initialize_parameters_norm, mbind, M_bind, get_self, USHIONN_ASSERT.
  rewrite Hhost. cbn [mret M_ret].
  by repeat case_decide.
Qed.

End Initialiser.

(** ** The initialiser on examples *)

(** Two float layers with two weights each, one with zeroed storage, one
    with storage full of ones: after the call both hold the same bytes. *)
Lemma initialize_parameters_norm_deterministic_example :
  exists b : list byte,
    initialize_parameters_norm lcg_random 7 (init_world FLOAT FLOAT true 8)
    = (Ok tt, with_host b (init_world FLOAT FLOAT true 8))
    /\ initialize_parameters_norm lcg_random 7
         (with_host (replicate 8 Byte.xff) (init_world FLOAT FLOAT true 8))
       = (Ok tt, with_host b (with_host (replicate 8 Byte.xff) (init_world FLOAT FLOAT true 8)))
    /\ length b = 8%nat.
Proof.
  destruct (initialize_parameters_norm_deterministic lcg_random 7
              (init_world FLOAT FLOAT true 8)
              (with_host (replicate 8 Byte.xff) (init_world FLOAT FLOAT true 8))
              eq_refl eq_refl eq_refl (or_introl eq_refl) eq_refl
              ltac:(by compute) eq_refl eq_refl)
    as (b & H1 & H2 & _ & Hlen).
  exists b. split; [exact H1|]. split; [exact H2 | exact Hlen].
Defined.

(** C7, as stated, fails: the branch follows the layer's configured data type,
    not the weight tensor's. Two layers store their two weights as doubles
    in 16 zeroed bytes on the host; one is configured as DOUBLE, the other
    as FLOAT. With the same seed both calls return, and the storages
    differ: the second call has written two floats into the first 8 bytes
    and left the other 8 as they were. *)
Lemma initialize_parameters_norm_storage_type_ignored :
  exists b1 b2 : list byte,
    initialize_parameters_norm lcg_random 7 (init_world DOUBLE DOUBLE true 16)
    = (Ok tt, with_host b1 (init_world DOUBLE DOUBLE true 16))
    /\ initialize_parameters_norm lcg_random 7 (init_world FLOAT DOUBLE true 16)
       = (Ok tt, with_host b2 (init_world FLOAT DOUBLE true 16))
    /\ t_data_type (weights_ (self (init_world DOUBLE DOUBLE true 16))) = DOUBLE
    /\ t_data_type (weights_ (self (init_world FLOAT DOUBLE true 16))) = DOUBLE
    /\ b1 <> b2
    /\ drop 8 b2 = zero_bytes 8.
Proof.
  exists (t_host (weights_ (self
            (initialize_parameters_norm lcg_random 7 (init_world DOUBLE DOUBLE true 16)).2))),
    (t_host (weights_ (self
            (initialize_parameters_norm lcg_random 7 (init_world FLOAT DOUBLE true 16)).2))).
  repeat split; try (vm_compute; reflexivity).
  vm_compute. discriminate.
Qed.

(** The two failures on examples: weights that are not on the host, and a
    layer configured as INT32. *)
Lemma initialize_parameters_norm_failures_example :
  initialize_parameters_norm lcg_random 7 (init_world INT32 INT32 false 0)
  = (Err (PreconditionFailure "The weight to initialize must be on the host"),
     init_world INT32 INT32 false 0)
  /\ initialize_parameters_norm lcg_random 7 (init_world INT32 INT32 true 8)
     = (Err (UnsupportedFatal
               "This library does not yet support integer weight initialization"),
        init_world INT32 INT32 true 8).
Proof.
  split.
  - exact (proj1 (initialize_parameters_norm_failures lcg_random 7
                    (init_world INT32 INT32 false 0)) eq_refl).
  - exact (proj2 (initialize_parameters_norm_failures lcg_random 7
                    (init_world INT32 INT32 true 8)) eq_refl eq_refl).
Defined.

(** C5, as stated, fails: a weight tensor stored as INT32 in a layer configured
    as FLOAT is on no failure path. The call returns and the 8 zeroed bytes
    of the storage have been overwritten. *)
Lemma initialize_parameters_norm_writes_int32_storage :
  exists b : list byte,
    initialize_parameters_norm lcg_random 7 (init_world FLOAT INT32 true 8)
    = (Ok tt, with_host b (init_world FLOAT INT32 true 8))
    /\ t_data_type (weights_ (self (init_world FLOAT INT32 true 8))) = INT32
    /\ t_host (weights_ (self (init_world FLOAT INT32 true 8))) = zero_bytes 8
    /\ b <> zero_bytes 8.
Proof.
  exists (t_host (weights_ (self
            (initialize_parameters_norm lcg_random 7 (init_world FLOAT INT32 true 8)).2))).
  repeat split; try (vm_compute; reflexivity).
  vm_compute. discriminate.
Qed.

(** A layer configured as HALF over float storage on the host: the call
    returns and nothing has changed. *)
Lemma initialize_parameters_norm_other_types_example :
  initialize_parameters_norm lcg_random 7 (init_world HALF FLOAT true 8)
  = (Ok tt, init_world HALF FLOAT true 8).
Proof.
  exact (initialize_parameters_norm_other_types lcg_random 7
           (init_world HALF FLOAT true 8) eq_refl
           ltac:(discriminate) ltac:(discriminate) ltac:(discriminate)).
Defined.

(** C10, as stated, fails: the assertion of line 97 comes before the branch. A
    layer configured as HALF whose weights are not on the host stops with
    the precondition failure. *)
Lemma initialize_parameters_norm_other_types_not_on_host :
  initialize_parameters_norm lcg_random 7 (init_world HALF FLOAT false 0)
  = (Err (PreconditionFailure "The weight to initialize must be on the host"),
     init_world HALF FLOAT false 0).
Proof. reflexivity. Qed.

(** * Further properties of the code *)

(** ** The swap of lines 47-50 and 72-74 *)

Lemma fold_mul_snoc2 (pre : list Z) (a b : Z) :
  fold_right Z.mul 1 (pre ++ [a; b]) = fold_right Z.mul 1 (pre ++ [b; a]).
Proof. rewrite !fold_right_app. simpl. f_equal. lia. Qed.

(** X1. On a shape of at least two dimensions the swap is its own inverse:
    swapping again gives the shape back. It keeps the number of
    dimensions, every dimension but the last two, and the number of
    elements the shape describes. *)
Theorem swap_last_two_involutive (v : list Z) :
  2 <= vec_size v < SIZE_T_MOD ->
  exists v' : list Z,
    swap_last_two v = Some v'
    /\ swap_last_two v' = Some v
    /\ length v' = length v
    /\ take (length v - 2) v' = take (length v - 2) v
    /\ fold_right Z.mul 1 v' = fold_right Z.mul 1 v.
Proof.
  intros [H2 Hlt]. destruct (split_last_two v H2) as (pre & a & b & ->).
  exists (pre ++ [b; a]).
  assert (Hsize : vec_size (pre ++ [b; a]) = vec_size (pre ++ [a; b]))
    by (unfold vec_size; by rewrite !length_app).
  split; [by apply swap_last_two_snoc|].
  split; [apply swap_last_two_snoc; by rewrite Hsize|].
  split; [by rewrite !length_app|].
  split; [|by apply fold_mul_snoc2].
  rewrite length_app. simpl.
  replace (length pre + 2 - 2)%nat with (length pre) by lia.
  by rewrite !take_app_length.
Qed.

Lemma swap_last_two_involutive_example :
  2 <= vec_size [2; 8; 4] < SIZE_T_MOD
  /\ swap_last_two [2; 8; 4] = Some [2; 4; 8]
  /\ swap_last_two [2; 4; 8] = Some [2; 8; 4].
Proof.
  split; [by compute|].
  destruct (swap_last_two_involutive [2; 8; 4] ltac:(by compute))
    as (v' & H1 & H2 & _).
  assert (Hv : v' = [2; 4; 8]) by (vm_compute in H1; congruence).
  rewrite Hv in *. by split.
Defined.

Lemma logical_transpose_involutive (v : list Z) :
  2 <= vec_size v -> logical_transpose (logical_transpose v) = v.
Proof.
  intros H2. destruct (split_last_two v H2) as (pre & a & b & ->).
  by rewrite !logical_transpose_snoc.
Qed.

Lemma vec_size_logical_transpose (v : list Z) :
  2 <= vec_size v -> vec_size (logical_transpose v) = vec_size v.
Proof.
  intros H2. destruct (split_last_two v H2) as (pre & a & b & ->).
  rewrite logical_transpose_snoc. unfold vec_size. by rewrite !length_app.
Qed.

(** ** More on the two builders *)

Section Builders.
Context (reg : Registry).

(** The forward call with its two outputs written out. *)
Lemma add_forward_to_graph_run (input : TRef) (w : World) :
  let l := self w in
  let n := length (heap w) in
  let mm := mkMatmulAttr (t_data_type (weights_ l)) in
  let add := mkPointwiseAttr (t_data_type (bias_ l)) PW_ADD in
  let h1 := heap w ++ [of_tensor (weights_ l); of_tensor (bias_ l)] in
  let mm_out := named_output l "_weights_matmul_out" (reg_matmul reg h1 input n mm) in
  let h2 := heap w ++ [of_tensor (weights_ l); of_tensor (bias_ l); mm_out] in
  let add_out :=
    named_output l "_bias_add_out" (reg_pointwise reg h2 (n + 2)%nat (n + 1)%nat add) in
  add_forward_to_graph reg input w =
    (Ok (n + 3)%nat,
     mkWorld
       (heap w ++ [of_tensor (weights_ l); of_tensor (bias_ l); mm_out; add_out])
       (graph w ++ [OpMatmul input n mm (n + 2)%nat;
                    OpPointwise (n + 2)%nat (n + 1)%nat add (n + 3)%nat])
       l).
Proof.
  cbv zeta. unfold add_forward_to_graph. run_builder. step_fresh. step_fresh.
  rewrite !length_app. cbn [length].
  unfold named_output, get_data_type. rewrite <- !app_assoc. cbn [app].
  repeat (f_equal; try lia).
Qed.

(** What a completed backward call leaves behind. *)
Lemma add_backward_to_graph_facts (dY X fo : TRef) (w : World)
    (x : Tensor_attributes) (sx sw : list Z) :
  heap w !! X = Some x ->
  swap_last_two (ta_dim x) = Some sx ->
  swap_last_two (t_shape (weights_ (self w))) = Some sw ->
  let l := self w in
  let n := length (heap w) in
  let mm := mkMatmulAttr (t_data_type (weights_grad_ l)) in
  let red := mkReductionAttr (t_data_type (bias_grad_ l)) RED_ADD in
  exists w' : World,
    add_backward_to_graph reg dY X fo w = (Ok (n + 5)%nat, w')
    /\ self w' = l
    /\ graph w' = graph w ++ [OpMatmul X dY mm (n + 1)%nat; OpReduction dY red (n + 3)%nat;
                              OpMatmul dY (n + 4)%nat mm (n + 5)%nat]
    /\ length (heap w') = (n + 6)%nat
    /\ heap w' !! X = Some (reshaped l sx x)
    /\ (forall k : nat, k <> X -> (k < n)%nat -> heap w' !! k = heap w !! k)
    /\ heap w' !! n = Some (of_tensor (weights_grad_ l))
    /\ heap w' !! (n + 2)%nat = Some (of_tensor (bias_grad_ l))
    /\ heap w' !! (n + 4)%nat = Some (reshaped l sw (of_tensor (weights_ l))).
Proof.
  intros HX Hsx Hsw. cbv zeta.
  pose proof (add_backward_to_graph_run reg dY X fo w x sx sw HX Hsx Hsw) as Hrun.
  cbv zeta in Hrun. pose proof (lookup_lt_Some _ _ _ HX) as Hlt.
  eexists. split; [exact Hrun|]. cbn [heap graph self].
  split; [done|]. split; [done|].
  split; [rewrite length_app, length_insert; simpl; lia|].
  split; [rewrite lookup_app_l by (by rewrite length_insert);
          by apply list_lookup_insert_eq|].
  split; [intros k Hk Hkn; rewrite lookup_app_l by (by rewrite length_insert);
          by apply list_lookup_insert_ne|].
  split; [rewrite <- (Nat.add_0_r (length (heap w))) at 1|];
    repeat split; rewrite lookup_fresh by (by rewrite length_insert); reflexivity.
Qed.

(** X2. A completed backward call adds exactly six descriptors to the store and
    changes exactly one that existed before: the forward input keeps its
    name, has its last two dimensions swapped, is now virtual and has the
    layer's data type, whatever it was before. Every other earlier
    descriptor and the layer itself are as they were; the descriptors made
    from the two gradient tensors stay in the store as made. *)
Theorem add_backward_to_graph_frame (dY X fo : TRef) (w : World) (x : Tensor_attributes) :
  heap w !! X = Some x ->
  2 <= vec_size (ta_dim x) < SIZE_T_MOD ->
  2 <= vec_size (t_shape (weights_ (self w))) < SIZE_T_MOD ->
  let n := length (heap w) in
  exists w' : World,
    add_backward_to_graph reg dY X fo w = (Ok (n + 5)%nat, w')
    /\ self w' = self w
    /\ length (heap w') = (n + 6)%nat
    /\ heap w' !! X
       = Some (mkTA (ta_name x) (data_type_ (self w)) (logical_transpose (ta_dim x)) true)
    /\ (forall k : nat, k <> X -> (k < n)%nat -> heap w' !! k = heap w !! k)
    /\ heap w' !! n = Some (of_tensor (weights_grad_ (self w)))
    /\ heap w' !! (n + 2)%nat = Some (of_tensor (bias_grad_ (self w))).
Proof.
  intros HX Hx Hw. cbv zeta.
  destruct (add_backward_to_graph_facts dY X fo w x _ _ HX
              (swap_last_two_transpose _ Hx) (swap_last_two_transpose _ Hw))
    as (w' & Hrun & Hself & _ & Hlen & HX' & Hother & Hwg & Hbg & _).
  exists w'. by repeat split.
Qed.

(** X3. Two backward calls on the same forward input undo each other's
    transpose: after the first the forward input has its last two
    dimensions swapped, after the second it has its original shape again
    (it stays virtual). Each call appends its three operations. *)
Theorem add_backward_to_graph_twice (dY dY2 X fo fo2 : TRef) (w : World)
    (x : Tensor_attributes) :
  heap w !! X = Some x ->
  2 <= vec_size (ta_dim x) < SIZE_T_MOD ->
  2 <= vec_size (t_shape (weights_ (self w))) < SIZE_T_MOD ->
  exists (r1 r2 : TRef) (w1 w2 : World),
    add_backward_to_graph reg dY X fo w = (Ok r1, w1)
    /\ add_backward_to_graph reg dY2 X fo2 w1 = (Ok r2, w2)
    /\ (ta_dim <$> heap w1 !! X) = Some (logical_transpose (ta_dim x))
    /\ (ta_dim <$> heap w2 !! X) = Some (ta_dim x)
    /\ (ta_is_virtual <$> heap w2 !! X) = Some true
    /\ length (graph w2) = (length (graph w) + 6)%nat
    /\ length (heap w2) = (length (heap w) + 12)%nat.
Proof.
  intros HX Hx Hw.
  destruct (add_backward_to_graph_facts dY X fo w x _ _ HX
              (swap_last_two_transpose _ Hx) (swap_last_two_transpose _ Hw))
    as (w1 & Hrun1 & Hself1 & Hg1 & Hlen1 & HX1 & _).
  assert (Hx1 : 2 <= vec_size (ta_dim (reshaped (self w) (logical_transpose (ta_dim x)) x))
                < SIZE_T_MOD).
  { cbn [reshaped set_data_type set_is_virtual set_dim ta_dim].
    rewrite vec_size_logical_transpose; lia. }
  assert (Hw1 : 2 <= vec_size (t_shape (weights_ (self w1))) < SIZE_T_MOD)
    by (by rewrite Hself1).
  destruct (add_backward_to_graph_facts dY2 X fo2 w1 _ _ _ HX1
              (swap_last_two_transpose _ Hx1) (swap_last_two_transpose _ Hw1))
    as (w2 & Hrun2 & Hself2 & Hg2 & Hlen2 & HX2 & _).
  eexists _, _, w1, w2. split; [exact Hrun1|]. split; [exact Hrun2|].
  split; [by rewrite HX1|].
  split.
  - rewrite HX2. cbn [reshaped set_data_type set_is_virtual set_dim ta_dim fmap option_fmap
                      option_map].
    rewrite logical_transpose_involutive; [done | lia].
  - split; [by rewrite HX2|].
    split; [rewrite Hg2, Hg1, !length_app; simpl; lia | lia].
Qed.

(** X4. A forward call followed by the backward call on the same input: the
    graph gains the two forward operations, then the three backward ones.
    The backward call transposes the very descriptor the forward matmul
    consumes as its input, while the weight descriptor the forward matmul
    consumes keeps the weights' shape: the backward call transposes a
    descriptor of its own. *)
Theorem forward_then_backward (dY X : TRef) (w : World) (x : Tensor_attributes) :
  heap w !! X = Some x ->
  2 <= vec_size (ta_dim x) < SIZE_T_MOD ->
  2 <= vec_size (t_shape (weights_ (self w))) < SIZE_T_MOD ->
  let l := self w in
  let n := length (heap w) in
  let mm := mkMatmulAttr (t_data_type (weights_ l)) in
  let add := mkPointwiseAttr (t_data_type (bias_ l)) PW_ADD in
  let mm' := mkMatmulAttr (t_data_type (weights_grad_ l)) in
  let red := mkReductionAttr (t_data_type (bias_grad_ l)) RED_ADD in
  exists w' : World,
    (out ← add_forward_to_graph reg X; add_backward_to_graph reg dY X out) w
    = (Ok (n + 9)%nat, w')
    /\ graph w' = graph w ++ [OpMatmul X n mm (n + 2)%nat;
                              OpPointwise (n + 2)%nat (n + 1)%nat add (n + 3)%nat;
                              OpMatmul X dY mm' (n + 5)%nat;
                              OpReduction dY red (n + 7)%nat;
                              OpMatmul dY (n + 8)%nat mm' (n + 9)%nat]
    /\ (ta_dim <$> heap w' !! X) = Some (logical_transpose (ta_dim x))
    /\ heap w' !! n = Some (of_tensor (weights_ l))
    /\ (ta_dim <$> heap w' !! (n + 8)%nat)
       = Some (logical_transpose (t_shape (weights_ l)))
    /\ self w' = l.
Proof.
  intros HX Hx Hw. cbv zeta.
  pose proof (lookup_lt_Some _ _ _ HX) as Hlt.
  unfold mbind at 1. unfold M_bind at 1.
  rewrite add_forward_to_graph_run. cbv zeta.
  match goal with |- context [add_backward_to_graph reg dY X _ ?w1] => set (w1' := w1) end.
  assert (HX1 : heap w1' !! X = Some x) by (subst w1'; cbn [heap]; by rewrite lookup_app_l).
  assert (Hw1 : 2 <= vec_size (t_shape (weights_ (self w1'))) < SIZE_T_MOD) by done.
  assert (Hn1 : length (heap w1') = (length (heap w) + 4)%nat)
    by (subst w1'; cbn [heap]; rewrite length_app; simpl; lia).
  destruct (add_backward_to_graph_facts dY X (length (heap w) + 3)%nat w1' x _ _ HX1
              (swap_last_two_transpose _ Hx) (swap_last_two_transpose _ Hw1))
    as (w' & Hrun & Hself & Hg & _ & HX' & Hother & _ & _ & Hwt).
  rewrite Hn1 in *.
  exists w'. split; [rewrite Hrun; do 2 f_equal; lia|].
  split.
  { rewrite Hg. subst w1'. cbn [graph self]. rewrite <- app_assoc. cbn [app].
    repeat (f_equal; try lia). }
  split; [by rewrite HX'|].
  split.
  { rewrite Hother by lia. subst w1'. cbn [heap].
    rewrite <- (Nat.add_0_r (length (heap w))) at 1. by rewrite lookup_fresh. }
  split; [|done].
  replace (length (heap w) + 8)%nat with (length (heap w) + 4 + 4)%nat by lia.
  by rewrite Hwt.
Qed.

End Builders.

Lemma add_backward_to_graph_frame_example :
  exists w' : World,
    add_backward_to_graph infer_registry 1%nat 0%nat 0%nat example_world = (Ok 7%nat, w')
    /\ length (heap w') = 8%nat
    /\ heap w' !! 0%nat = Some (mkTA "X" FLOAT [4; 8] true)
    /\ heap w' !! 1%nat = Some (mkTA "dY" FLOAT [8; 3] false).
Proof.
  destruct (add_backward_to_graph_frame infer_registry 1%nat 0%nat 0%nat example_world
              (mkTA "X" FLOAT [8; 4] false) eq_refl
              (proj1 example_shapes_fit) (proj2 example_shapes_fit))
    as (w' & Hrun & _ & Hlen & HX & Hother & _).
  exists w'. split; [exact Hrun|]. split; [exact Hlen|]. split; [exact HX|].
  exact (Hother 1%nat ltac:(done) ltac:(simpl; lia)).
Defined.

Lemma add_backward_to_graph_twice_example :
  exists (r1 r2 : TRef) (w1 w2 : World),
    add_backward_to_graph infer_registry 1%nat 0%nat 0%nat example_world = (Ok r1, w1)
    /\ add_backward_to_graph infer_registry 1%nat 0%nat 0%nat w1 = (Ok r2, w2)
    /\ (ta_dim <$> heap w1 !! 0%nat) = Some [4; 8]
    /\ (ta_dim <$> heap w2 !! 0%nat) = Some [8; 4].
Proof.
  destruct (add_backward_to_graph_twice infer_registry 1%nat 1%nat 0%nat 0%nat 0%nat
              example_world (mkTA "X" FLOAT [8; 4] false) eq_refl
              (proj1 example_shapes_fit) (proj2 example_shapes_fit))
    as (r1 & r2 & w1 & w2 & H1 & H2 & Hd1 & Hd2 & _).
  exists r1, r2, w1, w2. by repeat split.
Defined.

Lemma forward_then_backward_example :
  exists w' : World,
    (out ← add_forward_to_graph infer_registry 0%nat;
     add_backward_to_graph infer_registry 1%nat 0%nat out) example_world
    = (Ok 11%nat, w')
    /\ (ta_dim <$> heap w' !! 0%nat) = Some [4; 8]
    /\ (ta_dim <$> heap w' !! 2%nat) = Some [4; 3]
    /\ (ta_dim <$> heap w' !! 10%nat) = Some [3; 4].
Proof.
  destruct (forward_then_backward infer_registry 1%nat 0%nat example_world
              (mkTA "X" FLOAT [8; 4] false) eq_refl
              (proj1 example_shapes_fit) (proj2 example_shapes_fit))
    as (w' & Hrun & _ & HX & HW & HWt & _).
  exists w'. split; [exact Hrun|]. split; [exact HX|].
  split; [exact (f_equal (fmap ta_dim) HW) | exact HWt].
Defined.

(** ** More on the initialiser *)

Section InitialiserMore.
Context (rnd : StdRandom).

(** X6. Initialising again forgets the first initialisation: on a float or
    double layer with host storage for its elements, a call with one seed
    followed by a call with another leaves exactly what the second call
    alone leaves. *)
Theorem initialize_parameters_norm_again (seed1 seed2 : Z) (w : World) :
  is_on_host (weights_ (self w)) = true ->
  data_type_ (self w) = FLOAT \/ data_type_ (self w) = DOUBLE ->
  get_num_elements (weights_ (self w)) <= INT_MAX ->
  length (t_host (weights_ (self w)))
  = (sizeof_configured (data_type_ (self w))
     * Z.to_nat (get_num_elements (weights_ (self w))))%nat ->
  (initialize_parameters_norm rnd seed1;; initialize_parameters_norm rnd seed2) w
  = initialize_parameters_norm rnd seed2 w.
Proof.
  intros Hhost Hdt Hmax Hlen.
  unfold mbind at 1. unfold M_bind at 1.
  rewrite (initialize_parameters_norm_run rnd seed1 w) by (done || lia).
  rewrite (initialize_parameters_norm_run rnd seed2 w) by (done || lia).
  rewrite <- Hlen, drop_all, !app_nil_r.
  match goal with |- initialize_parameters_norm rnd seed2 ?w1 = _ => set (w1' := w1) end.
  assert (Hb : length (t_host (weights_ (self w1'))) = length (t_host (weights_ (self w)))).
  { subst w1'. cbn [with_host self set_weights weights_ set_host t_host].
    rewrite Hlen.
    destruct Hdt as [-> | ->]; cbn [initial_bytes sizeof_configured];
      apply length_drawn_bytes. }
  assert (Hhost1 : is_on_host (weights_ (self w1')) = true) by exact Hhost.
  assert (Hdt1 : data_type_ (self w1') = FLOAT \/ data_type_ (self w1') = DOUBLE)
    by exact Hdt.
  assert (Hmax1 : get_num_elements (weights_ (self w1')) <= INT_MAX) by exact Hmax.
  assert (Hlen1 : (sizeof_configured (data_type_ (self w1'))
                   * Z.to_nat (get_num_elements (weights_ (self w1')))
                   <= length (t_host (weights_ (self w1'))))%nat)
    by (rewrite Hb, Hlen; exact (Nat.le_refl _)).
  rewrite (initialize_parameters_norm_run rnd seed2 w1' Hhost1 Hdt1 Hmax1 Hlen1).
  change (data_type_ (self w1')) with (data_type_ (self w)).
  change (get_num_elements (weights_ (self w1')))
    with (get_num_elements (weights_ (self w))).
  rewrite <- Hlen, <- Hb, drop_all, app_nil_r. by subst w1'.
Qed.

End InitialiserMore.

Lemma initialize_parameters_norm_again_example :
  (initialize_parameters_norm lcg_random 3;; initialize_parameters_norm lcg_random 7)
    (init_world FLOAT FLOAT true 8)
  = initialize_parameters_norm lcg_random 7 (init_world FLOAT FLOAT true 8).
Proof.
  exact (initialize_parameters_norm_again lcg_random 3 7 (init_world FLOAT FLOAT true 8)
           eq_refl (or_introl eq_refl) ltac:(by compute) eq_refl).
Defined.
